(** * Flash-sale service: checkout handler, purchase engine and sold-items filter

  A shallow embedding of the two-phase allocation engine of
  [yuzvak/flashsale-service]:

  - [internal/domain/sale]            sale, item, checkout, purchase service
  - [internal/infrastructure/bloom]   the Redis-backed sold-items filter
  - [internal/pkg/bloom]              the in-process filter
  - [internal/infrastructure/redis]   the coordination store (cache)
  - [internal/infrastructure/persistence/postgres]  the durable store
  - [internal/application/commands]   the checkout handler
  - [internal/application/use_cases]  the purchase use case

  Go [int]/[uint64] values are integers in [Z] with the wrap-around written
  out where the source adds or multiplies; instants are nanosecond counts in
  [Z]; Redis and PostgreSQL are explicit state, and every call that can
  return an error takes a flag saying whether it does.  A call that fails
  has no effect on the store it addresses; a transaction that does not
  commit leaves the committed state as it was. *)

From Stdlib Require Import ZArith List String Ascii Bool Lia.
From stdpp Require Import base tactics option list gmap sets strings.

Open Scope string_scope.
Open Scope Z_scope.

(** ** Machine integers *)

Module Int.

Definition wrapU64 (z : Z) : Z := z mod 2 ^ 64.
Definition wrapU32 (z : Z) : Z := z mod 2 ^ 32.

(** Go's signed [int] on a 64-bit target. *)
Definition wrap64 (z : Z) : Z := (z + 2 ^ 63) mod 2 ^ 64 - 2 ^ 63.

Definition in_int64 (z : Z) : Prop := - 2 ^ 63 <= z < 2 ^ 63.

End Int.

(** ** Hash functions used by the filters

  [hash/fnv] and [crypto/sha256] belong to the Go standard library; they are
  written out here so that the filters run on concrete item identifiers. *)

Module Hash.

Definition bytes_of (s : string) : list Z :=
  map (fun c => Z.of_N (N_of_ascii c)) (list_ascii_of_string s).

(** FNV-1a, 64 bits: xor the byte in, then multiply by the prime. *)
Definition fnv_offset64 : Z := 14695981039346656037.
Definition fnv_prime64 : Z := 1099511628211.

Definition fnv64a_step (h b : Z) : Z :=
  Int.wrapU64 (Z.lxor h b * fnv_prime64).

Definition fnv64a (bs : list Z) : Z := fold_left fnv64a_step bs fnv_offset64.

(** SHA-256 (FIPS 180-4).  The round constants are the leading 32 fraction
    bits of the cube roots of the first 64 primes and the initial state those
    of the square roots of the first 8; both are computed rather than
    tabulated. *)

Definition primes64 : list Z :=
  [2; 3; 5; 7; 11; 13; 17; 19; 23; 29; 31; 37; 41; 43; 47; 53;
   59; 61; 67; 71; 73; 79; 83; 89; 97; 101; 103; 107; 109; 113; 127; 131;
   137; 139; 149; 151; 157; 163; 167; 173; 179; 181; 191; 193; 197; 199;
   211; 223; 227; 229; 233; 239; 241; 251; 257; 263; 269; 271; 277; 281;
   283; 293; 307; 311].

(** Integer cube root by bisection on [lo, lo + 2^bits). *)
Fixpoint icbrt_from (bits : nat) (lo n : Z) : Z :=
  match bits with
  | O => lo
  | S b =>
      let mid := lo + 2 ^ Z.of_nat b in
      if mid * mid * mid <=? n then icbrt_from b mid n else icbrt_from b lo n
  end.

Definition frac_cbrt32 (p : Z) : Z := Int.wrapU32 (icbrt_from 40 0 (p * 2 ^ 96)).
Definition frac_sqrt32 (p : Z) : Z := Int.wrapU32 (Z.sqrt (p * 2 ^ 64)).

Definition K256 : list Z := Eval vm_compute in map frac_cbrt32 primes64.
Definition H256 : list Z := Eval vm_compute in map frac_sqrt32 (firstn 8 primes64).

Definition rotr (n x : Z) : Z :=
  Int.wrapU32 (Z.lor (Z.shiftr x n) (Z.shiftl x (32 - n))).
Definition not32 (x : Z) : Z := Z.lxor x (2 ^ 32 - 1).

Definition Ch (x y z : Z) : Z := Z.lxor (Z.land x y) (Z.land (not32 x) z).
Definition Maj (x y z : Z) : Z :=
  Z.lxor (Z.lxor (Z.land x y) (Z.land x z)) (Z.land y z).
Definition bsig0 (x : Z) : Z := Z.lxor (Z.lxor (rotr 2 x) (rotr 13 x)) (rotr 22 x).
Definition bsig1 (x : Z) : Z := Z.lxor (Z.lxor (rotr 6 x) (rotr 11 x)) (rotr 25 x).
Definition ssig0 (x : Z) : Z := Z.lxor (Z.lxor (rotr 7 x) (rotr 18 x)) (Z.shiftr x 3).
Definition ssig1 (x : Z) : Z := Z.lxor (Z.lxor (rotr 17 x) (rotr 19 x)) (Z.shiftr x 10).

(** Big-endian packing of bytes. *)
Definition be_word (bs : list Z) : Z := fold_left (fun acc b => acc * 256 + b) bs 0.

Fixpoint be_bytes (n : nat) (x : Z) : list Z :=
  match n with
  | O => []
  | S k => be_bytes k (x / 256) ++ [x mod 256]
  end.

(** Message padding: 0x80, zeros up to 56 mod 64, the bit length on 8 bytes. *)
Definition sha_pad (msg : list Z) : list Z :=
  let len := Z.of_nat (length msg) in
  let zeros := Z.to_nat ((55 - len) mod 64) in
  msg ++ [128] ++ repeat 0 zeros ++ be_bytes 8 (len * 8).

Fixpoint chunks (n : nat) (fuel : nat) (l : list Z) : list (list Z) :=
  match fuel with
  | O => []
  | S f =>
      match l with
      | [] => []
      | _ => firstn n l :: chunks n f (skipn n l)
      end
  end.

(** The message schedule, most recent word first. *)
Fixpoint extend_schedule (n : nat) (rev_w : list Z) : list Z :=
  match n with
  | O => rev_w
  | S k =>
      let w2 := nth 1 rev_w 0 in
      let w7 := nth 6 rev_w 0 in
      let w15 := nth 14 rev_w 0 in
      let w16 := nth 15 rev_w 0 in
      extend_schedule k (Int.wrapU32 (ssig1 w2 + w7 + ssig0 w15 + w16) :: rev_w)
  end.

Definition schedule (block : list Z) : list Z :=
  rev (extend_schedule 48 (rev (map be_word (chunks 4 16 block)))).

Record regs := Regs { ra : Z; rb : Z; rc : Z; rd : Z; re : Z; rf : Z; rg : Z; rh : Z }.

Definition sha_round (s : regs) (kw : Z * Z) : regs :=
  let t1 := rh s + bsig1 (re s) + Ch (re s) (rf s) (rg s) + fst kw + snd kw in
  let t2 := bsig0 (ra s) + Maj (ra s) (rb s) (rc s) in
  Regs (Int.wrapU32 (t1 + t2)) (ra s) (rb s) (rc s)
       (Int.wrapU32 (rd s + t1)) (re s) (rf s) (rg s).

Definition sha_block (s : regs) (block : list Z) : regs :=
  let t := fold_left sha_round (combine K256 (schedule block)) s in
  Regs (Int.wrapU32 (ra s + ra t)) (Int.wrapU32 (rb s + rb t))
       (Int.wrapU32 (rc s + rc t)) (Int.wrapU32 (rd s + rd t))
       (Int.wrapU32 (re s + re t)) (Int.wrapU32 (rf s + rf t))
       (Int.wrapU32 (rg s + rg t)) (Int.wrapU32 (rh s + rh t)).

Definition sha_init : regs :=
  Regs (nth 0 H256 0) (nth 1 H256 0) (nth 2 H256 0) (nth 3 H256 0)
       (nth 4 H256 0) (nth 5 H256 0) (nth 6 H256 0) (nth 7 H256 0).

Definition sha256_regs (msg : list Z) : regs :=
  let padded := sha_pad msg in
  fold_left sha_block (chunks 64 (length padded) padded) sha_init.

(** [binary.BigEndian.Uint64(h[:8])] of the digest: the first two state words. *)
Definition sha256_prefix64 (msg : list Z) : Z :=
  let r := sha256_regs msg in ra r * 2 ^ 32 + rb r.

End Hash.

(** ** Errors and results

  The sentinel errors of [internal/domain/errors].  [ErrNew] stands for an
  error built by [errors.New] or returned by a driver or client, [ErrWrap]
  for [fmt.Errorf("...: %w", err)]; a wrapped error is not equal to the
  sentinel it wraps. *)

Inductive error : Type :=
| ErrSaleNotFound
| ErrSaleNotActive
| ErrSaleOutOfStock
| ErrSaleLimitExceeded
| ErrNoItemsToPurchase
| ErrItemNotFound
| ErrItemAlreadySold
| ErrItemNotInSale
| ErrAllItemsSold
| ErrCheckoutNotFound
| ErrCheckoutExpired
| ErrItemAlreadyInCheckout
| ErrUserAlreadyCheckedOutItem
| ErrUserLimitExceeded
| ErrCheckoutAlreadyProcessed
| ErrTransactionFailed
| ErrNew (msg : string)
| ErrWrap (msg : string) (e : error).

(** A Go [(T, error)] pair whose value is meaningful only when the error is nil. *)
Inductive result (A : Type) : Type :=
| Ok (a : A)
| Err (e : error).

Arguments Ok {A} a.
Arguments Err {A} e.


(** The value a caller sees when it discards the error: [v, _ := f()]. *)
Definition value_or {A} (d : A) (r : result A) : A :=
  match r with Ok a => a | Err _ => d end.

(** ** Domain: [internal/domain/sale] *)

Module Sale.

Record t : Type := mk {
  ID : string;
  StartedAt : Z;
  EndedAt : Z;
  TotalItems : Z;
  ItemsSold : Z
}.

(** [now.After(s.StartedAt) && now.Before(s.EndedAt)] *)
Definition IsActive (s : t) (now : Z) : bool :=
  (StartedAt s <? now) && (now <? EndedAt s).

Definition HasAvailableItems (s : t) : bool := ItemsSold s <? TotalItems s.

Definition with_ItemsSold (s : t) (n : Z) : t :=
  mk (ID s) (StartedAt s) (EndedAt s) (TotalItems s) n.

End Sale.

Module Item.

Record t : Type := mk {
  ID : string;
  SaleID : string;
  Name : string;
  ImageURL : string;
  Sold : bool;
  SoldToUserID : string;
  SoldAt : option Z
}.

Definition IsSold (i : t) : bool := Sold i.

Definition BelongsToSale (i : t) (saleID : string) : bool := String.eqb (SaleID i) saleID.

End Item.

Module Checkout.

Record t : Type := mk {
  Code : string;
  SaleID : string;
  UserID : string;
  ItemIDs : list string
}.

Definition NewCheckout (code saleID userID : string) (itemIDs : list string) : result t :=
  if String.eqb code "" then Err (ErrNew "checkout code cannot be empty")
  else if String.eqb saleID "" then Err (ErrNew "sale id cannot be empty")
  else if String.eqb userID "" then Err (ErrNew "user id cannot be empty")
  else if (length itemIDs =? 0)%nat then Err (ErrNew "item ids cannot be empty")
  else Ok (mk code saleID userID itemIDs).

(** Linear scan for the id, then [append]. *)
Definition AddItem (c : t) (itemID : string) : result t :=
  if existsb (String.eqb itemID) (ItemIDs c)
  then Err (ErrNew "item already in checkout")
  else Ok (mk (Code c) (SaleID c) (UserID c) (ItemIDs c ++ [itemID])).

Definition ItemCount (c : t) : Z := Z.of_nat (length (ItemIDs c)).

End Checkout.

(** [purchase_service.go] *)

Record PurchaseItemResult : Type := {
  pir_ID : string;
  pir_Name : string;
  pir_Sold : bool
}.

Record PurchaseResult : Type := {
  Success : bool;
  Items : list PurchaseItemResult;
  TotalPurchased : Z;
  FailedCount : Z
}.

Record UserLimits : Type := {
  CurrentItemCount : Z;
  MaxItemsPerUser : Z
}.

Record PurchaseService : Type := {
  svc_maxItemsPerSale : Z;
  svc_maxItemsPerUser : Z
}.

Definition go_len {A} (l : list A) : Z := Z.of_nat (length l).

(** [ValidatePurchase]; [now] is the reading of [time.Now()].  The sale
    pointer is never nil at the one call site. *)
Definition ValidatePurchase (s : PurchaseService) (sale : Sale.t) (now : Z)
    (userLimits : UserLimits) (items : list Item.t) : option error :=
  if negb (Sale.IsActive sale now) then Some ErrSaleNotActive
  else if (go_len items =? 0) then Some ErrNoItemsToPurchase
  else if Int.wrap64 (Sale.ItemsSold sale + go_len items) >? svc_maxItemsPerSale s
       then Some ErrSaleLimitExceeded
  else if Int.wrap64 (CurrentItemCount userLimits + go_len items) >? svc_maxItemsPerUser s
       then Some ErrUserLimitExceeded
  else if forallb (fun it => Item.BelongsToSale it (Sale.ID sale)) items then None
  else Some ErrItemNotInSale.

(** [CalculatePurchaseResult]: the success map is the membership test on the
    list of purchased ids. *)
Definition CalculatePurchaseResult (attemptedItems : list Item.t)
    (successfulPurchases : list string) : PurchaseResult :=
  {| Success := 0 <? go_len successfulPurchases;
     Items := map (fun it =>
                {| pir_ID := Item.ID it;
                   pir_Name := Item.Name it;
                   pir_Sold := existsb (String.eqb (Item.ID it)) successfulPurchases |})
                attemptedItems;
     TotalPurchased := go_len successfulPurchases;
     FailedCount := Int.wrap64 (go_len attemptedItems - go_len successfulPurchases) |}.

(** ** The sold-items filter over a Redis bitmap: [infrastructure/bloom] *)

Module RedisBloomFilter.

Record t : Type := mk {
  m : Z;  (* size in bits, uint64 *)
  k : Z   (* number of hash functions, uint64 *)
}.

Definition hash1 (element : string) : Z := Hash.fnv64a (Hash.bytes_of element).

Definition hash2 (element : string) : Z := Hash.sha256_prefix64 (Hash.bytes_of element).

(** [hashes[i] = h1 + i*h2] in uint64 arithmetic, for [i < k]. *)
Definition getHashes (bf : t) (element : string) : list Z :=
  let h1 := hash1 element in
  let h2 := hash2 element in
  map (fun i => Int.wrapU64 (h1 + Int.wrapU64 (i * h2))) (seqZ 0 (k bf)).

(** [bitPos := hashes[i] % bf.m].  Go panics on [m = 0]; the properties below
    are stated for [0 < m]. *)
Definition bitPositions (bf : t) (element : string) : list Z :=
  map (fun h => h mod m bf) (getHashes bf element).

(** [Add] with a pipeline that executes: every SETBIT takes effect. *)
Definition Add (bf : t) (element : string) (bits : gset Z) : gset Z :=
  fold_left (fun b pos => {[pos]} ∪ b) (bitPositions bf element) bits.

(** [Contains] with a pipeline that executes: false at the first zero bit. *)
Definition Contains (bf : t) (element : string) (bits : gset Z) : bool :=
  forallb (fun pos => bool_decide (pos ∈ bits)) (bitPositions bf element).

End RedisBloomFilter.

(** ** The in-process filter: [pkg/bloom] *)

Module BloomFilter.

Record t : Type := mk {
  bitset : list bool;
  size : Z;
  hashCount : Z
}.

Definition NewBloomFilter (size hashCount : Z) : t :=
  mk (repeat false (Z.to_nat size)) size hashCount.

(** FNV-1a over the item's bytes followed by [byte(seed)], reduced modulo
    [size] (a panic in Go when [size = 0]). *)
Definition hash (bf : t) (item : string) (seed : Z) : Z :=
  Hash.fnv64a (Hash.bytes_of item ++ [seed mod 256]) mod size bf.

Definition Add (bf : t) (item : string) : t :=
  mk (fold_left (fun bs i => <[Z.to_nat (hash bf item i) := true]> bs)
                (seqZ 0 (hashCount bf)) (bitset bf))
     (size bf) (hashCount bf).

Definition Contains (bf : t) (item : string) : bool :=
  forallb (fun i => bool_decide (bitset bf !! Z.to_nat (hash bf item i) = Some true))
          (seqZ 0 (hashCount bf)).

End BloomFilter.

(** ** The durable store: [persistence/postgres]

  Tables follow [migrations/001_initial_schema.up.sql].  [sales], [items] and
  [purchase_results] are keyed by their primary key; [checkout_attempts] and
  [checkout_items] are row lists in insertion order, which is also the order
  of their timestamps.  Row identifiers drawn from [crypto/rand] are modelled
  by a counter.  Columns that no code path reads ([created_at]) are left out. *)

Record SaleRow : Type := {
  started_at : Z;
  ended_at : Z;
  total_items : Z;
  items_sold : Z
}.

Record ItemRow : Type := {
  sale_id : string;
  name : string;
  image_url : string;
  sold : bool;
  sold_to_user_id : option string;
  sold_at : option Z
}.

Record AttemptRow : Type := {
  ca_id : Z;
  ca_checkout_code : string;
  ca_sale_id : string;
  ca_user_id : string
}.

Record CheckoutItemRow : Type := {
  ci_checkout_attempt_id : Z;
  ci_item_id : string
}.

Record Database : Type := mkDatabase {
  sales : gmap string SaleRow;
  items : gmap string ItemRow;
  checkout_attempts : list AttemptRow;
  checkout_items : list CheckoutItemRow;
  purchase_results : gmap string PurchaseResult;
  next_id : Z
}.

Definition with_sales (d : Database) (x : gmap string SaleRow) : Database :=
  mkDatabase x (items d) (checkout_attempts d) (checkout_items d) (purchase_results d) (next_id d).

Definition with_items (d : Database) (x : gmap string ItemRow) : Database :=
  mkDatabase (sales d) x (checkout_attempts d) (checkout_items d) (purchase_results d) (next_id d).

Definition with_checkouts (d : Database) (a : list AttemptRow) (c : list CheckoutItemRow)
    (n : Z) : Database :=
  mkDatabase (sales d) (items d) a c (purchase_results d) n.

Definition with_purchase_results (d : Database) (x : gmap string PurchaseResult) : Database :=
  mkDatabase (sales d) (items d) (checkout_attempts d) (checkout_items d) x (next_id d).

Definition db_error : error := ErrNew "postgres: statement failed".

Definition sale_of_row (id : string) (r : SaleRow) : Sale.t :=
  Sale.mk id (started_at r) (ended_at r) (total_items r) (items_sold r).

Definition row_of_sale (s : Sale.t) : SaleRow :=
  {| started_at := Sale.StartedAt s; ended_at := Sale.EndedAt s;
     total_items := Sale.TotalItems s; items_sold := Sale.ItemsSold s |}.

(** A NULL [sold_to_user_id] scans into the empty string. *)
Definition item_of_row (id : string) (r : ItemRow) : Item.t :=
  Item.mk id (sale_id r) (name r) (image_url r) (sold r)
          (default "" (sold_to_user_id r)) (sold_at r).

Module SaleRepository.

(** [WHERE started_at <= NOW() AND ended_at > NOW() ORDER BY started_at DESC
    LIMIT 1]; [now] is the database clock. *)
Definition later_start (best : option Sale.t) (kv : string * SaleRow) : option Sale.t :=
  let s := sale_of_row kv.1 kv.2 in
  match best with
  | Some b => if Sale.StartedAt b <? Sale.StartedAt s then Some s else Some b
  | None => Some s
  end.

Definition GetActiveSale (fail : bool) (now : Z) (d : Database) : result Sale.t :=
  if fail then Err db_error else
  let open := List.filter (fun kv => (started_at kv.2 <=? now) && (now <? ended_at kv.2))
                     (map_to_list (sales d)) in
  match fold_left later_start open None with
  | Some s => Ok s
  | None => Err ErrSaleNotFound
  end.

Definition GetSaleByID (fail : bool) (id : string) (d : Database) : result Sale.t :=
  if fail then Err db_error else
  match sales d !! id with
  | Some r => Ok (sale_of_row id r)
  | None => Err ErrSaleNotFound
  end.

(** [UPDATE sales SET ... WHERE id = $1]: no row, no change, no error. *)
Definition UpdateSale (fail : bool) (s : Sale.t) (d : Database) : option error * Database :=
  if fail then (Some db_error, d) else
  match sales d !! Sale.ID s with
  | Some _ => (None, with_sales d (<[Sale.ID s := row_of_sale s]> (sales d)))
  | None => (None, d)
  end.

Definition GetItemByID (fail : bool) (id : string) (d : Database) : result Item.t :=
  if fail then Err db_error else
  match items d !! id with
  | Some r => Ok (item_of_row id r)
  | None => Err ErrItemNotFound
  end.

(** [UPDATE items SET sold = TRUE, sold_to_user_id = $2, sold_at = NOW()
    WHERE id = $1 AND sold = FALSE]; the result is [rowsAffected > 0]. *)
Definition sell (r : ItemRow) (userID : string) (now : Z) : ItemRow :=
  {| sale_id := sale_id r; name := name r; image_url := image_url r;
     sold := true; sold_to_user_id := Some userID; sold_at := Some now |}.

Definition MarkItemAsSold (fail : bool) (now : Z) (id userID : string) (d : Database)
  : result bool * Database :=
  if fail then (Err db_error, d) else
  match items d !! id with
  | Some r =>
      if sold r then (Ok false, d)
      else (Ok true, with_items d (<[id := sell r userID now]> (items d)))
  | None => (Ok false, d)
  end.

(** [INSERT ... ON CONFLICT (checkout_code) DO NOTHING] *)
Definition SavePurchaseResult (fail : bool) (checkoutCode : string) (r : PurchaseResult)
    (d : Database) : option error * Database :=
  if fail then (Some db_error, d) else
  match purchase_results d !! checkoutCode with
  | Some _ => (None, d)
  | None => (None, with_purchase_results d (<[checkoutCode := r]> (purchase_results d)))
  end.

(** No row is [(nil, nil)]. *)
Definition GetPurchaseResult (fail : bool) (checkoutCode : string) (d : Database)
  : result (option PurchaseResult) :=
  if fail then Err db_error else Ok (purchase_results d !! checkoutCode).

End SaleRepository.

Module CheckoutRepository.

Definition attempts_of (code : string) (d : Database) : list AttemptRow :=
  List.filter (fun a => String.eqb (ca_checkout_code a) code) (checkout_attempts d).

Definition attempt_ids (code : string) (d : Database) : list Z :=
  map ca_id (attempts_of code d).

(** The join of [checkout_items] with the attempts carrying the code,
    [ORDER BY ci.added_at]. *)
Definition items_of (code : string) (d : Database) : list string :=
  map ci_item_id
      (List.filter (fun c => existsb (Z.eqb (ci_checkout_attempt_id c)) (attempt_ids code d))
              (checkout_items d)).

(** The newest attempt row gives code, sale and user; the items come from
    every attempt that carries the code. *)
Definition GetCheckoutByCode (fail : bool) (code : string) (d : Database) : result Checkout.t :=
  if fail then Err db_error else
  match last (attempts_of code d) with
  | Some a => Ok (Checkout.mk (ca_checkout_code a) (ca_sale_id a) (ca_user_id a) (items_of code d))
  | None => Err ErrCheckoutNotFound
  end.

(** Foreign keys of the two checkout tables. *)
Definition sale_exists (saleID : string) (d : Database) : bool :=
  bool_decide (is_Some (sales d !! saleID)).

Definition item_exists (itemID : string) (d : Database) : bool :=
  bool_decide (is_Some (items d !! itemID)).

Definition has_item_row (attemptID : Z) (itemID : string) (rows : list CheckoutItemRow) : bool :=
  existsb (fun c => (ci_checkout_attempt_id c =? attemptID) && String.eqb (ci_item_id c) itemID)
          rows.

(** The item rows of one new attempt; [None] when a foreign key or the
    [(checkout_attempt_id, item_id)] uniqueness rejects a row. *)
Fixpoint insert_item_rows (d : Database) (attemptID : Z) (itemIDs : list string)
    (rows : list CheckoutItemRow) : option (list CheckoutItemRow) :=
  match itemIDs with
  | [] => Some rows
  | itemID :: rest =>
      if item_exists itemID d && negb (has_item_row attemptID itemID rows)
      then insert_item_rows d attemptID rest
             (rows ++ [{| ci_checkout_attempt_id := attemptID; ci_item_id := itemID |}])
      else None
  end.

(** One transaction: the attempt row, then a row per item; any failure rolls
    the whole insert back. *)
Definition insert_attempt (code saleID userID : string) (itemIDs : list string) (d : Database)
  : option error * Database :=
  let id := next_id d in
  if negb (sale_exists saleID d) then (Some db_error, d) else
  match insert_item_rows d id itemIDs (checkout_items d) with
  | Some rows =>
      (None, with_checkouts d
               (checkout_attempts d ++
                  [{| ca_id := id; ca_checkout_code := code;
                      ca_sale_id := saleID; ca_user_id := userID |}])
               rows (id + 1))
  | None => (Some db_error, d)
  end.

Definition CreateCheckout (fail : bool) (c : Checkout.t) (d : Database) : option error * Database :=
  if fail then (Some db_error, d) else
  insert_attempt (Checkout.Code c) (Checkout.SaleID c) (Checkout.UserID c) (Checkout.ItemIDs c) d.

(** The first attempt row with the code receives the item unless it already
    has it. *)
Definition AddItemToCheckout (fail : bool) (checkoutCode itemID : string) (d : Database)
  : option error * Database :=
  if fail then (Some db_error, d) else
  match attempts_of checkoutCode d with
  | [] => (Some ErrCheckoutNotFound, d)
  | a :: _ =>
      if has_item_row (ca_id a) itemID (checkout_items d) then (Some ErrItemAlreadyInCheckout, d)
      else if negb (item_exists itemID d) then (Some db_error, d)
      else (None, with_checkouts d (checkout_attempts d)
                    (checkout_items d ++
                       [{| ci_checkout_attempt_id := ca_id a; ci_item_id := itemID |}])
                    (next_id d))
  end.

(** The audit insert of the purchase path: a new attempt row with the same
    code and one item row. *)
Definition LogCheckoutAttempt (fail : bool) (saleID userID checkoutCode itemID : string)
    (d : Database) : option error * Database :=
  if fail then (Some db_error, d) else
  insert_attempt checkoutCode saleID userID [itemID] d.

(** [DELETE FROM checkout_attempts WHERE checkout_code = $1], cascading to
    [checkout_items]. *)
Definition DeleteCheckout (fail : bool) (checkoutCode : string) (d : Database)
  : option error * Database :=
  if fail then (Some db_error, d) else
  let gone := attempt_ids checkoutCode d in
  (None, with_checkouts d
           (List.filter (fun a => negb (String.eqb (ca_checkout_code a) checkoutCode))
                   (checkout_attempts d))
           (List.filter (fun c => negb (existsb (Z.eqb (ci_checkout_attempt_id c)) gone))
                   (checkout_items d))
           (next_id d)).

End CheckoutRepository.

(** ** The coordination store: [infrastructure/redis]

  Redis has one key space with typed values.  The key formats of the service
  end in different suffixes per value type, so the store is kept as one map
  per type: integer counters, strings, sets, and the bitmap under
  [bloom:sold_items].  Expiry is not a step of any operation; [expire] below
  removes a key and is offered to traces as an event of its own. *)

Record Cache : Type := mkCache {
  ints : gmap string Z;
  strs : gmap string string;
  sets : gmap string (gset string);
  bits : gset Z
}.

Definition with_ints (c : Cache) (x : gmap string Z) : Cache :=
  mkCache x (strs c) (sets c) (bits c).

Definition with_strs (c : Cache) (x : gmap string string) : Cache :=
  mkCache (ints c) x (sets c) (bits c).

Definition with_sets (c : Cache) (x : gmap string (gset string)) : Cache :=
  mkCache (ints c) (strs c) x (bits c).

Definition with_bits (c : Cache) (x : gset Z) : Cache :=
  mkCache (ints c) (strs c) (sets c) x.

Definition expire (key : string) (c : Cache) : Cache :=
  mkCache (delete key (ints c)) (delete key (strs c)) (delete key (sets c)) (bits c).

Definition redis_error : error := ErrNew "redis: command failed".

Module Redis.

(** [GET] of a counter followed by [strconv.Atoi]; [redis.Nil] reads as 0. *)
Definition get_int (key : string) (c : Cache) : Z := default 0 (ints c !! key).

(** [INCRBY]: Redis refuses an increment that leaves the signed 64-bit range. *)
Definition INCRBY (key : string) (n : Z) (m : gmap string Z) : result Z * gmap string Z :=
  let v := default 0 (m !! key) + n in
  if (- 2 ^ 63 <=? v) && (v <? 2 ^ 63)
  then (Ok v, <[key := v]> m)
  else (Err (ErrNew "ERR increment or decrement would overflow"), m).

End Redis.

(** The Lua scripts.  Lua numbers are doubles; the scripts are computed here
    over [Z], which agrees with Lua while operands and sums stay within
    2^53 in magnitude.  An error raised by [redis.call] ends the script and
    keeps what earlier calls wrote. *)

Definition purchaseLuaScript (sale_key user_key : string)
    (item_count max_sale_items max_user_items : Z) (m : gmap string Z)
  : result Z * gmap string Z :=
  let current_sale_count := default 0 (m !! sale_key) in
  let current_user_count := default 0 (m !! user_key) in
  if current_sale_count + item_count >? max_sale_items then (Ok 0, m) else
  let remaining_user_capacity := max_user_items - current_user_count in
  if item_count >? remaining_user_capacity then (Ok 0, m) else
  match Redis.INCRBY sale_key item_count m with
  | (Err e, m1) => (Err e, m1)
  | (Ok _, m1) =>
      match Redis.INCRBY user_key item_count m1 with
      | (Err e, m2) => (Err e, m2)
      | (Ok _, m2) => (Ok 1, m2)
      end
  end.

Definition userLimitLuaScript (user_key : string) (item_count max_items : Z)
    (m : gmap string Z) : result Z * gmap string Z :=
  let current_count := default 0 (m !! user_key) in
  if current_count + item_count >? max_items then (Ok 0, m) else
  match Redis.INCRBY user_key item_count m with
  | (Err e, m1) => (Err e, m1)
  | (Ok _, m1) => (Ok 1, m1)
  end.

Definition saleLimitLuaScript (sale_key : string) (item_count max_items : Z)
    (m : gmap string Z) : result Z * gmap string Z :=
  let current_count := default 0 (m !! sale_key) in
  if current_count + item_count >? max_items then (Ok 0, m) else
  match Redis.INCRBY sale_key item_count m with
  | (Err e, m1) => (Err e, m1)
  | (Ok _, m1) => (Ok 1, m1)
  end.

(** The script inlined in [IncrementCounters]. *)
Definition incrementScript (sale_key user_key : string) (item_count : Z)
    (m : gmap string Z) : result Z * gmap string Z :=
  match Redis.INCRBY sale_key item_count m with
  | (Err e, m1) => (Err e, m1)
  | (Ok _, m1) =>
      match Redis.INCRBY user_key item_count m1 with
      | (Err e, m2) => (Err e, m2)
      | (Ok _, m2) => (Ok 1, m2)
      end
  end.

(** The script inlined in [DecrementCounters]; never called by the engine. *)
Definition decrementScript (sale_key user_key : string) (item_count : Z)
    (m : gmap string Z) : result Z * gmap string Z :=
  let current_sale_count := default 0 (m !! sale_key) in
  let current_user_count := default 0 (m !! user_key) in
  let new_sale_count := Z.max 0 (current_sale_count - item_count) in
  let new_user_count := Z.max 0 (current_user_count - item_count) in
  (Ok 1, <[user_key := new_user_count]> (<[sale_key := new_sale_count]> m)).

Module CacheOps.

Definition sale_items_sold_key (saleID : string) : string :=
  "sale:" +:+ saleID +:+ ":items_sold".

Definition user_count_key (saleID userID : string) : string :=
  "user:" +:+ userID +:+ ":sale:" +:+ saleID +:+ ":count".

Definition user_checkout_count_key (saleID userID : string) : string :=
  "user:" +:+ userID +:+ ":sale:" +:+ saleID +:+ ":checkout_count".

Definition user_checkout_key (saleID userID : string) : string :=
  "user:" +:+ userID +:+ ":sale:" +:+ saleID +:+ ":checkout".

Definition checkout_key (code : string) : string := "checkout:" +:+ code.

Definition checked_items_key (saleID userID : string) : string :=
  "user:" +:+ userID +:+ ":sale:" +:+ saleID +:+ ":checked_items".

Definition lock_key (key : string) : string := "lock:" +:+ key.

(** [bloom.GetOptimalParameters(100000, 0.01)]: the floating-point formulas
    give [m = 958506] bits and [k = 7] hashes. *)
Definition bloomFilter : RedisBloomFilter.t := RedisBloomFilter.mk 958506 7.

Definition AddItemToBloomFilter (fail : bool) (itemID : string) (c : Cache)
  : option error * Cache :=
  if fail then (Some redis_error, c)
  else (None, with_bits c (RedisBloomFilter.Add bloomFilter itemID (bits c))).

Definition ItemExistsInBloomFilter (fail : bool) (itemID : string) (c : Cache) : result bool :=
  if fail then Err redis_error
  else Ok (RedisBloomFilter.Contains bloomFilter itemID (bits c)).

Definition GetUserItemCount (fail : bool) (saleID userID : string) (c : Cache) : result Z :=
  if fail then Err redis_error else Ok (Redis.get_int (user_count_key saleID userID) c).

Definition GetUserCheckoutCount (fail : bool) (saleID userID : string) (c : Cache) : result Z :=
  if fail then Err redis_error
  else Ok (Redis.get_int (user_checkout_count_key saleID userID) c).

Definition IncrementUserCheckoutCount (fail : bool) (saleID userID : string) (c : Cache)
  : option error * Cache :=
  if fail then (Some redis_error, c) else
  match Redis.INCRBY (user_checkout_count_key saleID userID) 1 (ints c) with
  | (Ok _, m) => (None, with_ints c m)
  | (Err e, _) => (Some e, c)
  end.

(** [maxItems - purchasedCount - checkoutCount] in [int] arithmetic; either
    read failing fails the call. *)
Definition GetAvailableCheckoutSlots (fail : bool) (saleID userID : string) (maxItems : Z)
    (c : Cache) : result Z :=
  match GetUserItemCount fail saleID userID c with
  | Err e => Err e
  | Ok purchasedCount =>
      match GetUserCheckoutCount fail saleID userID c with
      | Err e => Err e
      | Ok checkoutCount =>
          Ok (Int.wrap64 (Int.wrap64 (maxItems - purchasedCount) - checkoutCount))
      end
  end.

(** [redis.Nil] is the empty code. *)
Definition GetUserCheckoutCode (fail : bool) (saleID userID : string) (c : Cache)
  : result string :=
  if fail then Err redis_error
  else Ok (default "" (strs c !! user_checkout_key saleID userID)).

Definition SetUserCheckoutCode (fail : bool) (saleID userID code : string) (c : Cache)
  : option error * Cache :=
  if fail then (Some redis_error, c)
  else (None, with_strs c (<[user_checkout_key saleID userID := code]> (strs c))).

Definition RemoveUserCheckoutCode (fail : bool) (saleID userID : string) (c : Cache)
  : option error * Cache :=
  if fail then (Some redis_error, c)
  else (None, mkCache (delete (user_checkout_count_key saleID userID) (ints c))
                      (delete (user_checkout_key saleID userID) (strs c))
                      (sets c) (bits c)).

Definition SetCheckoutCode (fail : bool) (code : string) (c : Cache) : option error * Cache :=
  if fail then (Some redis_error, c)
  else (None, with_strs c (<[checkout_key code := "1"]> (strs c))).

Definition CheckoutCodeExists (fail : bool) (code : string) (c : Cache) : result bool :=
  if fail then Err redis_error
  else Ok (bool_decide (is_Some (strs c !! checkout_key code))).

Definition RemoveCheckoutCode (fail : bool) (code : string) (c : Cache) : option error * Cache :=
  if fail then (Some redis_error, c)
  else (None, with_strs c (delete (checkout_key code) (strs c))).

Definition HasUserCheckedOutItem (fail : bool) (saleID userID itemID : string) (c : Cache)
  : result bool :=
  if fail then Err redis_error
  else Ok (bool_decide (itemID ∈ default ∅ (sets c !! checked_items_key saleID userID))).

Definition AddUserCheckedOutItem (fail : bool) (saleID userID itemID : string) (c : Cache)
  : option error * Cache :=
  if fail then (Some redis_error, c)
  else let key := checked_items_key saleID userID in
       (None, with_sets c (<[key := {[itemID]} ∪ default ∅ (sets c !! key)]> (sets c))).

Definition GetSaleItemCount (fail : bool) (saleID : string) (c : Cache) : result Z :=
  if fail then Err redis_error else Ok (Redis.get_int (sale_items_sold_key saleID) c).

Definition run_script (fail : bool) (script : gmap string Z -> result Z * gmap string Z)
    (c : Cache) : result Z * Cache :=
  if fail then (Err redis_error, c)
  else let '(r, m) := script (ints c) in (r, with_ints c m).

Definition IncrementCounters (fail : bool) (saleID userID : string) (itemCount : Z) (c : Cache)
  : option error * Cache :=
  match run_script fail
          (incrementScript (sale_items_sold_key saleID) (user_count_key saleID userID) itemCount)
          c with
  | (Ok _, c') => (None, c')
  | (Err e, c') => (Some e, c')
  end.

Definition DecrementCounters (fail : bool) (saleID userID : string) (itemCount : Z) (c : Cache)
  : option error * Cache :=
  match run_script fail
          (decrementScript (sale_items_sold_key saleID) (user_count_key saleID userID) itemCount)
          c with
  | (Ok _, c') => (None, c')
  | (Err e, c') => (Some e, c')
  end.

(** The boolean is [resultInt == 1]. *)
Definition AtomicPurchaseCheck (fail : bool) (saleID userID : string)
    (itemCount maxSaleItems maxUserItems : Z) (c : Cache) : result bool * Cache :=
  match run_script fail
          (purchaseLuaScript (sale_items_sold_key saleID) (user_count_key saleID userID)
                             itemCount maxSaleItems maxUserItems)
          c with
  | (Ok r, c') => (Ok (r =? 1), c')
  | (Err e, c') => (Err e, c')
  end.

Definition AtomicUserLimitCheck (fail : bool) (saleID userID : string) (itemCount maxItems : Z)
    (c : Cache) : result bool * Cache :=
  match run_script fail (userLimitLuaScript (user_count_key saleID userID) itemCount maxItems)
                   c with
  | (Ok r, c') => (Ok (r =? 1), c')
  | (Err e, c') => (Err e, c')
  end.

Definition AtomicSaleLimitCheck (fail : bool) (saleID : string) (itemCount maxItems : Z)
    (c : Cache) : result bool * Cache :=
  match run_script fail (saleLimitLuaScript (sale_items_sold_key saleID) itemCount maxItems)
                   c with
  | (Ok r, c') => (Ok (r =? 1), c')
  | (Err e, c') => (Err e, c')
  end.

(** [SETNX lock:key 1] *)
Definition DistributedLock (fail : bool) (key : string) (c : Cache) : result bool * Cache :=
  if fail then (Err redis_error, c) else
  match strs c !! lock_key key with
  | Some _ => (Ok false, c)
  | None => (Ok true, with_strs c (<[lock_key key := "1"]> (strs c)))
  end.

Definition ReleaseLock (fail : bool) (key : string) (c : Cache) : option error * Cache :=
  if fail then (Some redis_error, c)
  else (None, with_strs c (delete (lock_key key) (strs c))).

End CacheOps.

(** ** The world seen by a request

  [open_txs] counts transactions that were begun and then neither committed
  nor rolled back by the code; their writes never reach the committed state
  in [db]. *)

Record World : Type := mkWorld {
  db : Database;
  cache : Cache;
  open_txs : nat
}.

Definition with_db (w : World) (d : Database) : World := mkWorld d (cache w) (open_txs w).

Definition with_cache (w : World) (c : Cache) : World := mkWorld (db w) c (open_txs w).

(** A statement-level call on the durable store. *)
Definition on_db {A} (w : World) (r : A * Database) : A * World := (r.1, with_db w r.2).

(** A call on the coordination store. *)
Definition on_cache {A} (w : World) (r : A * Cache) : A * World := (r.1, with_cache w r.2).

(** ** Checkout codes: [pkg/generator] *)

Definition hex_digit (d : Z) : ascii :=
  nth (Z.to_nat d) (list_ascii_of_string "0123456789abcdef") "0"%char.

Fixpoint hex_digits (n : nat) (x : Z) : string :=
  match n with
  | O => ""
  | S n' => hex_digits n' (x / 16) +:+ String (hex_digit (x mod 16)) ""
  end.

(** [rand8] is what [rand.Read] delivered, the eight bytes read as one
    big-endian number, or [None] when it failed. *)
Definition GenerateCheckoutCode (rand8 : option Z) (saleID userID : string) : result string :=
  match rand8 with
  | None => Err (ErrNew "crypto/rand: read failed")
  | Some x => Ok ("CHK-" +:+ saleID +:+ "-" +:+ hex_digits 16 (Int.wrapU64 x))
  end.

(** ** The checkout handler: [commands/checkout_command.go] *)

Record CheckoutCommand : Type := {
  UserID : string;
  ItemID : string
}.

Record CheckoutResponse : Type := {
  Code : string;
  ItemsCount : Z;
  SaleEndsAt : Z
}.

Record CheckoutHandler : Type := {
  maxItemsLimit : Z
}.

(** The handler the HTTP layer builds for every request. *)
Definition httpCheckoutHandler : CheckoutHandler := {| maxItemsLimit := 10 |}.

(** Everything one invocation of [Handle] takes from outside: the two clock
    readings, the random bytes, and for each call whether it returns an
    error. *)
Record CheckoutEnv : Type := {
  co_db_now : Z;
  co_now : Z;
  co_rand8 : option Z;
  co_fail_GetActiveSale : bool;
  co_fail_ItemExistsInBloomFilter : bool;
  co_fail_GetAvailableCheckoutSlots : bool;
  co_fail_HasUserCheckedOutItem : bool;
  co_fail_GetItemByID : bool;
  co_fail_AddItemToBloomFilter : bool;
  co_fail_GetUserCheckoutCode : bool;
  co_fail_SetUserCheckoutCode : bool;
  co_fail_SetCheckoutCode : bool;
  co_fail_GetCheckoutByCode : bool;
  co_fail_CreateCheckout : bool;
  co_fail_AddItemToCheckout : bool;
  co_fail_IncrementUserCheckoutCount : bool;
  co_fail_AddUserCheckedOutItem : bool
}.

(** [v, err := f(); if err != nil { log } else if p(v) { return ... }]:
    the early return is taken only on a successful call. *)
Definition rejects {A} (r : result A) (p : A -> bool) : bool :=
  match r with
  | Ok v => p v
  | Err _ => false
  end.

(** Lines 104-118: a fresh code, registered under the user's key and under
    [checkout:{code}]; the two SET errors are only logged. *)
Definition registerCheckoutCode (e : CheckoutEnv) (saleID userID : string) (w : World)
  : result string * World :=
  match GenerateCheckoutCode (co_rand8 e) saleID userID with
  | Err _ => (Err ErrTransactionFailed, w)
  | Ok fresh =>
      let w1 := (on_cache w (CacheOps.SetUserCheckoutCode (co_fail_SetUserCheckoutCode e)
                               saleID userID fresh (cache w))).2 in
      let w2 := (on_cache w1 (CacheOps.SetCheckoutCode (co_fail_SetCheckoutCode e)
                                fresh (cache w1))).2 in
      (Ok fresh, w2)
  end.

(** Lines 102-119: [if err != nil || checkoutCode == ""] generates a code,
    otherwise the stored one is reused. *)
Definition resolveCheckoutCode (e : CheckoutEnv) (saleID userID : string) (w : World)
  : result string * World :=
  match CacheOps.GetUserCheckoutCode (co_fail_GetUserCheckoutCode e) saleID userID (cache w) with
  | Ok checkoutCode =>
      if String.eqb checkoutCode "" then registerCheckoutCode e saleID userID w
      else (Ok checkoutCode, w)
  | Err _ => registerCheckoutCode e saleID userID w
  end.

(** Lines 121-145: create the checkout with the item, or append the item to
    the checkout found under the code.  The result is the checkout whose
    item count the response reports. *)
Definition storeCheckoutItem (e : CheckoutEnv) (checkoutCode saleID : string)
    (cmd : CheckoutCommand) (w : World) : result Checkout.t * World :=
  match CheckoutRepository.GetCheckoutByCode (co_fail_GetCheckoutByCode e) checkoutCode (db w) with
  | Err _ =>
      match Checkout.NewCheckout checkoutCode saleID (UserID cmd) [ItemID cmd] with
      | Err er => (Err er, w)
      | Ok checkout =>
          match on_db w (CheckoutRepository.CreateCheckout (co_fail_CreateCheckout e)
                           checkout (db w)) with
          | (Some er, w') => (Err er, w')
          | (None, w') => (Ok checkout, w')
          end
      end
  | Ok checkout =>
      match Checkout.AddItem checkout (ItemID cmd) with
      | Err _ => (Err ErrUserAlreadyCheckedOutItem, w)
      | Ok checkout' =>
          match on_db w (CheckoutRepository.AddItemToCheckout (co_fail_AddItemToCheckout e)
                           checkoutCode (ItemID cmd) (db w)) with
          | (Some er, w') => (Err er, w')
          | (None, w') => (Ok checkout', w')
          end
      end
  end.

(** Lines 84-161, after the three admission checks. *)
Definition checkoutItem (e : CheckoutEnv) (activeSale : Sale.t) (cmd : CheckoutCommand)
    (w : World) : result CheckoutResponse * World :=
  match SaleRepository.GetItemByID (co_fail_GetItemByID e) (ItemID cmd) (db w) with
  | Err er => (Err er, w)
  | Ok item =>
      if negb (String.eqb (Item.SaleID item) (Sale.ID activeSale)) then (Err ErrItemNotInSale, w)
      else if Item.IsSold item then
        (Err ErrItemAlreadySold,
         (on_cache w (CacheOps.AddItemToBloomFilter (co_fail_AddItemToBloomFilter e)
                        (ItemID cmd) (cache w))).2)
      else
        match resolveCheckoutCode e (Sale.ID activeSale) (UserID cmd) w with
        | (Err er, w1) => (Err er, w1)
        | (Ok checkoutCode, w1) =>
            match storeCheckoutItem e checkoutCode (Sale.ID activeSale) cmd w1 with
            | (Err er, w2) => (Err er, w2)
            | (Ok checkout, w2) =>
                let w3 := (on_cache w2 (CacheOps.IncrementUserCheckoutCount
                                          (co_fail_IncrementUserCheckoutCount e)
                                          (Sale.ID activeSale) (UserID cmd) (cache w2))).2 in
                let w4 := (on_cache w3 (CacheOps.AddUserCheckedOutItem
                                          (co_fail_AddUserCheckedOutItem e)
                                          (Sale.ID activeSale) (UserID cmd) (ItemID cmd)
                                          (cache w3))).2 in
                (Ok {| Code := checkoutCode;
                       ItemsCount := Checkout.ItemCount checkout;
                       SaleEndsAt := Sale.EndedAt activeSale |}, w4)
            end
        end
  end.

Definition Handle (h : CheckoutHandler) (e : CheckoutEnv) (cmd : CheckoutCommand) (w : World)
  : result CheckoutResponse * World :=
  match SaleRepository.GetActiveSale (co_fail_GetActiveSale e) (co_db_now e) (db w) with
  | Err _ => (Err ErrSaleNotFound, w)
  | Ok activeSale =>
      if negb (Sale.IsActive activeSale (co_now e)) then (Err ErrSaleNotActive, w)
      else if rejects (CacheOps.ItemExistsInBloomFilter (co_fail_ItemExistsInBloomFilter e)
                         (ItemID cmd) (cache w))
                      (fun isSold => isSold)
      then (Err ErrItemAlreadySold, w)
      else if rejects (CacheOps.GetAvailableCheckoutSlots (co_fail_GetAvailableCheckoutSlots e)
                         (Sale.ID activeSale) (UserID cmd) (maxItemsLimit h) (cache w))
                      (fun availableSlots => availableSlots <=? 0)
      then (Err ErrUserLimitExceeded, w)
      else if rejects (CacheOps.HasUserCheckedOutItem (co_fail_HasUserCheckedOutItem e)
                         (Sale.ID activeSale) (UserID cmd) (ItemID cmd) (cache w))
                      (fun hasCheckedOut => hasCheckedOut)
      then (Err ErrUserAlreadyCheckedOutItem, w)
      else checkoutItem e activeSale cmd w
  end.

(** ** The purchase use case: [use_cases/purchase_use_case.go] *)

Record PurchaseUseCase : Type := {
  purchaseSvc : PurchaseService;
  maxItemsPerSale : Z;
  maxItemsPerUser : Z;
  retryAttempts : nat
}.

Definition NewPurchaseUseCase : PurchaseUseCase :=
  {| purchaseSvc := {| svc_maxItemsPerSale := 10000; svc_maxItemsPerUser := 10 |};
     maxItemsPerSale := 10000;
     maxItemsPerUser := 10;
     retryAttempts := 2 |}.

(** What one call of [attemptPurchase] takes from outside.  The flags of the
    calls made inside the loops are indexed by the iteration. *)
Record AttemptEnv : Type := {
  at_now : Z;
  at_db_now : Z;
  at_fail_LogCheckoutAttempt : nat -> bool;
  at_fail_GetUserItemCount : bool;
  at_fail_GetSaleItemCount : bool;
  at_fail_BeginTx : bool;
  at_fail_GetPurchaseResult : bool;
  at_fail_GetSaleByID : bool;
  at_fail_GetItemByID : nat -> bool;
  at_fail_ItemExistsInBloomFilter : nat -> bool;
  at_fail_MarkItemAsSold : nat -> bool;
  at_fail_AddItemToBloomFilter : nat -> bool;
  at_fail_IncrementCounters : bool;
  at_fail_UpdateSale : bool;
  at_fail_SavePurchaseResult : bool;
  at_fail_CommitTx : bool
}.

Record PurchaseEnv : Type := {
  pu_fail_CheckoutCodeExists : bool;
  pu_fail_GetCheckoutByCode : bool;
  pu_fail_SetCheckoutCode : bool;
  pu_fail_DistributedLock : bool;
  pu_fail_ReleaseLock : bool;
  pu_attempt : nat -> AttemptEnv;
  pu_fail_RemoveUserCheckoutCode : bool;
  pu_fail_RemoveCheckoutCode : bool;
  pu_fail_DeleteCheckout : bool
}.

(** Lines 110-114: one audit insert per item of the checkout, outside the
    purchase transaction; errors are logged. *)
Fixpoint logAttempts (e : AttemptEnv) (checkout : Checkout.t) (i : nat) (itemIDs : list string)
    (d : Database) : Database :=
  match itemIDs with
  | [] => d
  | itemID :: rest =>
      let d' := (CheckoutRepository.LogCheckoutAttempt (at_fail_LogCheckoutAttempt e i)
                   (Checkout.SaleID checkout) (Checkout.UserID checkout)
                   (Checkout.Code checkout) itemID d).2 in
      logAttempts e checkout (S i) rest d'
  end.

(** Lines 169-177: the items that can be read; a failed read skips the id. *)
Fixpoint loadItems (e : AttemptEnv) (i : nat) (itemIDs : list string) (d : Database)
  : list Item.t :=
  match itemIDs with
  | [] => []
  | itemID :: rest =>
      match SaleRepository.GetItemByID (at_fail_GetItemByID e i) itemID d with
      | Ok item => item :: loadItems e (S i) rest d
      | Err _ => loadItems e (S i) rest d
      end
  end.

(** Lines 192-215: the per-item loop.  [d] is the state inside the
    transaction, [c] the cache; the result carries [successfulPurchases]. *)
Fixpoint markItems (e : AttemptEnv) (userID : string) (i : nat) (its : list Item.t)
    (successfulPurchases : list string) (d : Database) (c : Cache)
  : list string * Database * Cache :=
  match its with
  | [] => (successfulPurchases, d, c)
  | item :: rest =>
      let alreadySold :=
        value_or false (CacheOps.ItemExistsInBloomFilter (at_fail_ItemExistsInBloomFilter e i)
                          (Item.ID item) c) in
      if alreadySold then markItems e userID (S i) rest successfulPurchases d c else
      match SaleRepository.MarkItemAsSold (at_fail_MarkItemAsSold e i) (at_db_now e)
              (Item.ID item) userID d with
      | (Err _, d') => markItems e userID (S i) rest successfulPurchases d' c
      | (Ok success, d') =>
          let c' := (CacheOps.AddItemToBloomFilter (at_fail_AddItemToBloomFilter e i)
                       (Item.ID item) c).2 in
          markItems e userID (S i) rest
            (if success then successfulPurchases ++ [Item.ID item] else successfulPurchases)
            d' c'
      end
  end.

(** How a transaction that does not commit ends.  The deferred closure calls
    [RollbackTx] only when the function-level [err] is non-nil; a return
    taken under an [if err := ...] of its own, or with a fresh error value,
    leaves the transaction open. *)
Definition rolledBack (w : World) : World := w.

Definition leftOpen (w : World) : World := mkWorld (db w) (cache w) (S (open_txs w)).

(** Lines 183-252, inside the transaction: [d] is the committed state at
    BEGIN, which every exit but a successful commit leaves in place. *)
Definition purchaseInTx (uc : PurchaseUseCase) (e : AttemptEnv) (checkout : Checkout.t)
    (saleEntity : Sale.t) (its : list Item.t) (w : World) : result PurchaseResult * World :=
  let userLimits := {| CurrentItemCount := 0; MaxItemsPerUser := maxItemsPerUser uc |} in
  match ValidatePurchase (purchaseSvc uc) saleEntity (at_now e) userLimits its with
  | Some er => (Err (ErrWrap "purchase validation failed" er), leftOpen w)
  | None =>
      let '(successfulPurchases, d1, c1) :=
        markItems e (Checkout.UserID checkout) 0 its [] (db w) (cache w) in
      let result := CalculatePurchaseResult its successfulPurchases in
      let n := go_len successfulPurchases in
      let c2 := if 0 <? n
                then (CacheOps.IncrementCounters (at_fail_IncrementCounters e)
                        (Checkout.SaleID checkout) (Checkout.UserID checkout) n c1).2
                else c1 in
      let w2 := with_cache w c2 in
      let sold := Sale.with_ItemsSold saleEntity (Int.wrap64 (Sale.ItemsSold saleEntity + n)) in
      match (if 0 <? n then SaleRepository.UpdateSale (at_fail_UpdateSale e) sold d1
             else (None, d1)) with
      | (Some er, _) => (Err (ErrWrap "failed to update sale" er), leftOpen w2)
      | (None, d2) =>
          match SaleRepository.SavePurchaseResult (at_fail_SavePurchaseResult e)
                  (Checkout.Code checkout) result d2 with
          | (Some er, _) => (Err (ErrWrap "failed to save purchase result" er), leftOpen w2)
          | (None, d3) =>
              if at_fail_CommitTx e
              then (Err (ErrWrap "failed to commit transaction" db_error), w2)
              else if (n =? 0) then (Err ErrAllItemsSold, with_db w2 d3)
              else (Ok result, with_db w2 d3)
          end
      end
  end.

Definition attemptPurchase (uc : PurchaseUseCase) (e : AttemptEnv) (checkout : Checkout.t)
    (w : World) : result PurchaseResult * World :=
  let w := with_db w (logAttempts e checkout 0 (Checkout.ItemIDs checkout) (db w)) in
  let n := go_len (Checkout.ItemIDs checkout) in
  let currentUserCount :=
    value_or 0 (CacheOps.GetUserItemCount (at_fail_GetUserItemCount e)
                  (Checkout.SaleID checkout) (Checkout.UserID checkout) (cache w)) in
  let currentSaleCount :=
    value_or 0 (CacheOps.GetSaleItemCount (at_fail_GetSaleItemCount e)
                  (Checkout.SaleID checkout) (cache w)) in
  if Int.wrap64 (currentSaleCount + n) >? maxItemsPerSale uc then (Err ErrSaleLimitExceeded, w)
  else if Int.wrap64 (currentUserCount + n) >? maxItemsPerUser uc
  then (Err ErrUserLimitExceeded, w)
  else if at_fail_BeginTx e then (Err (ErrWrap "failed to begin transaction" db_error), w)
  else
    match SaleRepository.GetPurchaseResult (at_fail_GetPurchaseResult e)
            (Checkout.Code checkout) (db w) with
    | Err er => (Err er, rolledBack w)
    | Ok (Some _) => (Err ErrCheckoutAlreadyProcessed, leftOpen w)
    | Ok None =>
        match SaleRepository.GetSaleByID (at_fail_GetSaleByID e) (Checkout.SaleID checkout)
                (db w) with
        | Err er => (Err (ErrWrap "failed to get sale" er), rolledBack w)
        | Ok saleEntity =>
            let its := loadItems e 0 (Checkout.ItemIDs checkout) (db w) in
            if (go_len its =? 0) then (Err (ErrNew "no valid items found"), leftOpen w)
            else purchaseInTx uc e checkout saleEntity its w
        end
    end.

Definition isBusinessLogicError (err : error) : bool :=
  match err with
  | ErrCheckoutNotFound | ErrSaleNotFound | ErrUserLimitExceeded
  | ErrCheckoutAlreadyProcessed => true
  | _ => false
  end.

(** Lines 81-96: the retry loop, entered at [attempt] with [more] further
    attempts allowed after this one. *)
Fixpoint attemptLoop (uc : PurchaseUseCase) (envs : nat -> AttemptEnv) (checkout : Checkout.t)
    (attempt more : nat) (w : World) : result PurchaseResult * World :=
  match attemptPurchase uc (envs attempt) checkout w with
  | (Ok result, w') => (Ok result, w')
  | (Err er, w') =>
      if isBusinessLogicError er then (Err er, w') else
      match more with
      | O => (Err er, w')
      | S more' => attemptLoop uc envs checkout (S attempt) more' w'
      end
  end.

(** Lines 255-270; every error is logged only. *)
Definition cleanupCheckout (e : PurchaseEnv) (checkoutCode saleID userID : string) (w : World)
  : World :=
  let w1 := (on_cache w (CacheOps.RemoveUserCheckoutCode (pu_fail_RemoveUserCheckoutCode e)
                           saleID userID (cache w))).2 in
  let w2 := (on_cache w1 (CacheOps.RemoveCheckoutCode (pu_fail_RemoveCheckoutCode e)
                            checkoutCode (cache w1))).2 in
  (on_db w2 (CheckoutRepository.DeleteCheckout (pu_fail_DeleteCheckout e) checkoutCode (db w2))).2.

Definition releaseLock (e : PurchaseEnv) (lockKey : string) (w : World) : World :=
  (on_cache w (CacheOps.ReleaseLock (pu_fail_ReleaseLock e) lockKey (cache w))).2.

(** [ExecutePurchase].  The constructor fixes [retryAttempts] to 2, so the
    loop body runs at least once. *)
Definition ExecutePurchase (uc : PurchaseUseCase) (e : PurchaseEnv) (checkoutCode : string)
    (w : World) : result PurchaseResult * World :=
  match CacheOps.CheckoutCodeExists (pu_fail_CheckoutCodeExists e) checkoutCode (cache w) with
  | Err er => (Err er, w)
  | Ok exists_ =>
      match CheckoutRepository.GetCheckoutByCode (pu_fail_GetCheckoutByCode e) checkoutCode
              (db w) with
      | Err _ => (Err ErrCheckoutNotFound, w)
      | Ok checkout =>
          let w1 := if exists_ then w
                    else (on_cache w (CacheOps.SetCheckoutCode (pu_fail_SetCheckoutCode e)
                                        checkoutCode (cache w))).2 in
          let lockKey := "purchase:" +:+ checkoutCode in
          match on_cache w1 (CacheOps.DistributedLock (pu_fail_DistributedLock e) lockKey
                               (cache w1)) with
          | (Err er, w2) => (Err (ErrWrap "failed to acquire lock" er), w2)
          | (Ok false, w2) =>
              (Err (ErrNew "another purchase is in progress for this user"), w2)
          | (Ok true, w2) =>
              match attemptLoop uc (pu_attempt e) checkout 0 (Nat.pred (retryAttempts uc)) w2 with
              | (Err er, w3) => (Err er, releaseLock e lockKey w3)
              | (Ok result, w3) =>
                  let w4 := cleanupCheckout e checkoutCode (Checkout.SaleID checkout)
                              (Checkout.UserID checkout) w3 in
                  (Ok result, releaseLock e lockKey w4)
              end
          end
      end
  end.

(** ** Traces

  Requests are run one after the other.  A purchase transaction is
  serializable and is taken as one step; what the environment decides
  (clock, random bytes, failing calls) comes with each operation, and a key
  of the coordination store may expire between any two operations. *)

Inductive Op : Type :=
| OpCheckout (e : CheckoutEnv) (cmd : CheckoutCommand)
| OpPurchase (e : PurchaseEnv) (checkoutCode : string)
| OpExpire (key : string).

Inductive Outcome : Type :=
| CheckedOut (r : result CheckoutResponse)
| Purchased (r : result PurchaseResult)
| Expired.

Definition step (h : CheckoutHandler) (uc : PurchaseUseCase) (o : Op) (w : World)
  : Outcome * World :=
  match o with
  | OpCheckout e cmd => let '(r, w') := Handle h e cmd w in (CheckedOut r, w')
  | OpPurchase e code => let '(r, w') := ExecutePurchase uc e code w in (Purchased r, w')
  | OpExpire key => (Expired, with_cache w (expire key (cache w)))
  end.

Fixpoint run (h : CheckoutHandler) (uc : PurchaseUseCase) (ops : list Op) (w : World)
  : list Outcome * World :=
  match ops with
  | [] => ([], w)
  | o :: rest =>
      let '(out, w') := step h uc o w in
      let '(outs, w'') := run h uc rest w' in
      (out :: outs, w'')
  end.

(** ** Environments and worlds used in the examples *)

(** A checkout environment in which only the named calls may fail:
    [cacheDown] fails the three admission reads, [codeLost] the SET of the
    user's checkout code. *)
Definition checkoutEnv (now : Z) (rand8 : Z) (cacheDown codeLost : bool) : CheckoutEnv :=
  {| co_db_now := now; co_now := now; co_rand8 := Some rand8;
     co_fail_GetActiveSale := false;
     co_fail_ItemExistsInBloomFilter := cacheDown;
     co_fail_GetAvailableCheckoutSlots := cacheDown;
     co_fail_HasUserCheckedOutItem := cacheDown;
     co_fail_GetItemByID := false;
     co_fail_AddItemToBloomFilter := false;
     co_fail_GetUserCheckoutCode := false;
     co_fail_SetUserCheckoutCode := codeLost;
     co_fail_SetCheckoutCode := false;
     co_fail_GetCheckoutByCode := false;
     co_fail_CreateCheckout := false;
     co_fail_AddItemToCheckout := false;
     co_fail_IncrementUserCheckoutCount := false;
     co_fail_AddUserCheckedOutItem := false |}.

(** No call fails. *)
Definition calmCheckout (now : Z) (rand8 : Z) : CheckoutEnv := checkoutEnv now rand8 false false.

Definition never : nat -> bool := fun _ => false.

(** A purchase attempt in which only the named calls fail: every filter
    SETBIT batch, the counter script, the commit. *)
Definition attemptEnv (now : Z) (filterAddFails countersFail commitFails : bool) : AttemptEnv :=
  {| at_now := now; at_db_now := now;
     at_fail_LogCheckoutAttempt := never;
     at_fail_GetUserItemCount := false;
     at_fail_GetSaleItemCount := false;
     at_fail_BeginTx := false;
     at_fail_GetPurchaseResult := false;
     at_fail_GetSaleByID := false;
     at_fail_GetItemByID := never;
     at_fail_ItemExistsInBloomFilter := never;
     at_fail_MarkItemAsSold := never;
     at_fail_AddItemToBloomFilter := fun _ => filterAddFails;
     at_fail_IncrementCounters := countersFail;
     at_fail_UpdateSale := false;
     at_fail_SavePurchaseResult := false;
     at_fail_CommitTx := commitFails |}.

Definition calmAttempt (now : Z) : AttemptEnv := attemptEnv now false false false.

Definition purchaseWith (attempts : nat -> AttemptEnv) : PurchaseEnv :=
  {| pu_fail_CheckoutCodeExists := false;
     pu_fail_GetCheckoutByCode := false;
     pu_fail_SetCheckoutCode := false;
     pu_fail_DistributedLock := false;
     pu_fail_ReleaseLock := false;
     pu_attempt := attempts;
     pu_fail_RemoveUserCheckoutCode := false;
     pu_fail_RemoveCheckoutCode := false;
     pu_fail_DeleteCheckout := false |}.

Definition calmPurchase (now : Z) : PurchaseEnv := purchaseWith (fun _ => calmAttempt now).

(** The first attempt runs in [first], every later one without failures. *)
Definition firstAttempt (first : AttemptEnv) (now : Z) : PurchaseEnv :=
  purchaseWith (fun attempt => match attempt with O => first | S _ => calmAttempt now end).

Definition emptyCache : Cache := mkCache ∅ ∅ ∅ ∅.

Definition unsoldItem (saleID name : string) : ItemRow :=
  {| sale_id := saleID; name := name; image_url := "https://img/" +:+ name;
     sold := false; sold_to_user_id := None; sold_at := None |}.

(** Sale [S-A], open on the instants 100 <= t < 1000, with the given items. *)
Definition saleWorld (totalItems : Z) (itemIDs : list string) : World :=
  {| db := {| sales := {[ "S-A" := {| started_at := 100; ended_at := 1000;
                                       total_items := totalItems; items_sold := 0 |} ]};
              items := list_to_map (map (fun id => (id, unsoldItem "S-A" id)) itemIDs);
              checkout_attempts := [];
              checkout_items := [];
              purchase_results := ∅;
              next_id := 1 |};
     cache := emptyCache;
     open_txs := 0 |}.

Definition checkout (userID itemID : string) : CheckoutCommand :=
  {| UserID := userID; ItemID := itemID |}.

Definition runService : list Op -> World -> list Outcome * World :=
  run httpCheckoutHandler NewPurchaseUseCase.

(** Items of a sale recorded as sold to a user:
    [count(items where sale_id = S and sold_to_user_id = U)]. *)
Definition soldTo (saleID userID : string) (d : Database) : nat :=
  length (List.filter
            (fun kv => sold kv.2 && String.eqb (sale_id kv.2) saleID &&
                       bool_decide (sold_to_user_id kv.2 = Some userID))
            (map_to_list (items d))).

(** The worlds and traces of the scenarios below. *)

Definition threeItems : World := saleWorld 3 ["I1"; "I2"; "I3"].

Definition elevenItemIDs : list string :=
  ["I01"; "I02"; "I03"; "I04"; "I05"; "I06"; "I07"; "I08"; "I09"; "I10"; "I11"].

Definition elevenItems : World := saleWorld 11 elevenItemIDs.

Definition code1 : string := "CHK-S-A-0000000000000001".

Definition code2 : string := "CHK-S-A-0000000000000002".

(** [u1] checks out [I1] and purchases; the commit of the first attempt
    fails and the purchase is retried. *)
Definition commitFailsOnce : list Op :=
  [OpCheckout (calmCheckout 200 1) (checkout "u1" "I1");
   OpPurchase (firstAttempt (attemptEnv 300 false false true) 301) code1].

(** The same, with the filter's SETBIT batch failing as well in the first
    attempt. *)
Definition commitAndFilterFailOnce : list Op :=
  [OpCheckout (calmCheckout 200 1) (checkout "u1" "I1");
   OpPurchase (firstAttempt (attemptEnv 300 true false true) 301) code1].

(** [u1] checks out ten items and purchases them while the counter script
    fails (the error is logged), then checks out and purchases an eleventh. *)
Definition elevenForOneUser : list Op :=
  map (fun id => OpCheckout (calmCheckout 200 1) (checkout "u1" id)) (firstn 10 elevenItemIDs) ++
  [OpPurchase (firstAttempt (attemptEnv 300 false true false) 301) code1;
   OpCheckout (calmCheckout 400 2) (checkout "u1" "I11");
   OpPurchase (calmPurchase 500) code2].

(** Scenario E4: checkout, purchase, and the state in which the purchase is
    asked for again. *)
Definition purchasedOnce : World :=
  (runService [OpCheckout (calmCheckout 200 1) (checkout "u1" "I1");
               OpPurchase (calmPurchase 300) code1] threeItems).2.

(** [u2] buys [I1] first; [u1], who had it in a checkout, then purchases and
    gets nothing, which leaves the checkout and its result row in place. *)
Definition twoBuyers : list Op :=
  [OpCheckout (calmCheckout 200 1) (checkout "u1" "I1");
   OpCheckout (calmCheckout 201 2) (checkout "u2" "I1");
   OpPurchase (calmPurchase 300) code2;
   OpPurchase (calmPurchase 301) code1].

Definition nothingLeftToBuy : World := (runService twoBuyers threeItems).2.



(** ** Vocabulary of the properties *)

(** The bitmap after a sequence of [Add]s. *)
Definition addAll (bf : RedisBloomFilter.t) (xs : list string) (bits : gset Z) : gset Z :=
  fold_left (fun b x => RedisBloomFilter.Add bf x b) xs bits.

(** The in-process filter after a sequence of [Add]s. *)
Definition memAddAll (xs : list string) (bf : BloomFilter.t) : BloomFilter.t :=
  fold_left BloomFilter.Add xs bf.

(** The bit array keeps the length given at construction. *)
Definition sized (bf : BloomFilter.t) : Prop :=
  0 < BloomFilter.size bf /\ length (BloomFilter.bitset bf) = Z.to_nat (BloomFilter.size bf).

(** The range in which Lua's doubles add and compare integers exactly. *)
Definition lua_exact (z : Z) : Prop := - 2 ^ 52 <= z <= 2 ^ 52.

(** The state left by [commitFailsOnce]: [I1] is in the filter and unsold. *)
Definition filteredButUnsold : World := (runService commitFailsOnce threeItems).2.

(** The environment [e] with the failure flags of the three admission reads
    replaced. *)
Definition withAdmissionFlags (filterFails slotsFail checkedFails : bool) (e : CheckoutEnv)
  : CheckoutEnv :=
  {| co_db_now := co_db_now e; co_now := co_now e; co_rand8 := co_rand8 e;
     co_fail_GetActiveSale := co_fail_GetActiveSale e;
     co_fail_ItemExistsInBloomFilter := filterFails;
     co_fail_GetAvailableCheckoutSlots := slotsFail;
     co_fail_HasUserCheckedOutItem := checkedFails;
     co_fail_GetItemByID := co_fail_GetItemByID e;
     co_fail_AddItemToBloomFilter := co_fail_AddItemToBloomFilter e;
     co_fail_GetUserCheckoutCode := co_fail_GetUserCheckoutCode e;
     co_fail_SetUserCheckoutCode := co_fail_SetUserCheckoutCode e;
     co_fail_SetCheckoutCode := co_fail_SetCheckoutCode e;
     co_fail_GetCheckoutByCode := co_fail_GetCheckoutByCode e;
     co_fail_CreateCheckout := co_fail_CreateCheckout e;
     co_fail_AddItemToCheckout := co_fail_AddItemToCheckout e;
     co_fail_IncrementUserCheckoutCount := co_fail_IncrementUserCheckoutCount e;
     co_fail_AddUserCheckedOutItem := co_fail_AddUserCheckedOutItem e |}.

(** What the three admission reads answer when they do not fail. *)
Definition filterSaysSold (cmd : CheckoutCommand) (w : World) : bool :=
  RedisBloomFilter.Contains CacheOps.bloomFilter (ItemID cmd) (bits (cache w)).

(** [maxItems - purchasedCount - checkoutCount] as read from the counters. *)
Definition availableSlots (h : CheckoutHandler) (s : Sale.t) (cmd : CheckoutCommand) (w : World)
  : Z :=
  Int.wrap64 (Int.wrap64 (maxItemsLimit h
                          - Redis.get_int (CacheOps.user_count_key (Sale.ID s) (UserID cmd))
                                          (cache w))
              - Redis.get_int (CacheOps.user_checkout_count_key (Sale.ID s) (UserID cmd))
                              (cache w)).

(** Membership of the item in the user's [checked_items] set. *)
Definition hasCheckedOut (s : Sale.t) (cmd : CheckoutCommand) (w : World) : bool :=
  bool_decide (ItemID cmd ∈
                 default ∅ (sets (cache w) !! CacheOps.checked_items_key (Sale.ID s) (UserID cmd))).

(** The tables that record what is sold. *)
Definition sameLedger (d d' : Database) : Prop :=
  items d' = items d /\ sales d' = sales d /\ purchase_results d' = purchase_results d.

(** The errors of the steps that precede the idempotency probe. *)
Definition failsBeforeProbe (er : error) : Prop :=
  er = redis_error \/
  er = ErrCheckoutNotFound \/
  er = ErrWrap "failed to acquire lock" redis_error \/
  er = ErrNew "another purchase is in progress for this user" \/
  er = ErrSaleLimitExceeded \/
  er = ErrUserLimitExceeded \/
  er = ErrWrap "failed to begin transaction" db_error \/
  er = db_error.

(** Lines 116-143 of an attempt: the advisory pre-check on the counters in
    [c], and the error it returns. *)
Definition preCheck (uc : PurchaseUseCase) (e : AttemptEnv) (checkout : Checkout.t) (c : Cache)
  : option error :=
  let n := go_len (Checkout.ItemIDs checkout) in
  let currentUserCount :=
    value_or 0 (CacheOps.GetUserItemCount (at_fail_GetUserItemCount e)
                  (Checkout.SaleID checkout) (Checkout.UserID checkout) c) in
  let currentSaleCount :=
    value_or 0 (CacheOps.GetSaleItemCount (at_fail_GetSaleItemCount e)
                  (Checkout.SaleID checkout) c) in
  if Int.wrap64 (currentSaleCount + n) >? maxItemsPerSale uc then Some ErrSaleLimitExceeded
  else if Int.wrap64 (currentUserCount + n) >? maxItemsPerUser uc then Some ErrUserLimitExceeded
  else None.

(** The attempt gets as far as the idempotency probe and the probe's query
    answers: the pre-check passes and neither BEGIN nor the query fails. *)
Definition reachesProbe (uc : PurchaseUseCase) (e : AttemptEnv) (checkout : Checkout.t)
    (c : Cache) : bool :=
  match preCheck uc e checkout c with
  | Some _ => false
  | None => negb (at_fail_BeginTx e) && negb (at_fail_GetPurchaseResult e)
  end.

(** The attempt fails before the probe answers, with an error that the retry
    loop does not take for a business error. *)
Definition retriedBeforeProbe (uc : PurchaseUseCase) (e : AttemptEnv) (checkout : Checkout.t)
    (c : Cache) : bool :=
  match preCheck uc e checkout c with
  | Some er => negb (isBusinessLogicError er)
  | None => at_fail_BeginTx e || at_fail_GetPurchaseResult e
  end.













(** * Properties *)

Example fnv64a_empty : Hash.fnv64a [] = 0xcbf29ce484222325.
Proof. reflexivity. Qed.

Example fnv64a_a : Hash.fnv64a (Hash.bytes_of "a") = 0xaf63dc4c8601ec8c.
Proof. vm_compute. reflexivity. Qed.

Example sha256_K_ends :
nth 0 Hash.K256 0 = 0x428a2f98 /\ nth 63 Hash.K256 0 = 0xc67178f2.
Proof. split; reflexivity. Qed.

Example sha256_abc : Hash.sha256_prefix64 (Hash.bytes_of "abc") = 0xba7816bf8f01cfea.
Proof. vm_compute. reflexivity. Qed.

Example sha256_empty : Hash.sha256_prefix64 [] = 0xe3b0c44298fc1c14.
Proof. vm_compute. reflexivity. Qed.

(** ** Machine integers *)

Lemma wrap64_id z : Int.in_int64 z -> Int.wrap64 z = z.
Proof.
  unfold Int.in_int64, Int.wrap64. intros H.
  rewrite Z.mod_small by lia. lia.
Qed.

(** ** The filters have no false negatives *)

Section RedisFilter.

Variable bf : RedisBloomFilter.t.

Lemma setbits_union (l : list Z) (bits : gset Z) :
  fold_left (fun b pos => {[pos]} ∪ b) l bits = list_to_set l ∪ bits.
Proof.
  revert bits. induction l as [|p l IH]; intros bits; simpl.
  - by rewrite union_empty_l_L.
  - rewrite IH, (assoc_L (∪)). f_equal. apply (comm_L (∪)).
Qed.

Lemma Add_spec (x : string) (bits : gset Z) :
  RedisBloomFilter.Add bf x bits = list_to_set (RedisBloomFilter.bitPositions bf x) ∪ bits.
Proof. apply setbits_union. Qed.

Lemma Add_keeps (x : string) (bits : gset Z) : bits ⊆ RedisBloomFilter.Add bf x bits.
Proof. rewrite Add_spec. apply union_subseteq_r. Qed.

Lemma Contains_true (x : string) (bits : gset Z) :
  RedisBloomFilter.Contains bf x bits = true <->
  forall pos, pos ∈ RedisBloomFilter.bitPositions bf x -> pos ∈ bits.
Proof.
  unfold RedisBloomFilter.Contains. rewrite forallb_forall. split.
  - intros H pos Hpos. apply list_elem_of_In in Hpos.
    specialize (H pos Hpos). by apply bool_decide_eq_true in H.
  - intros H pos Hpos. apply bool_decide_eq_true, H. by apply list_elem_of_In.
Qed.

Lemma Contains_mono (x : string) (bits bits' : gset Z) :
  bits ⊆ bits' ->
  RedisBloomFilter.Contains bf x bits = true -> RedisBloomFilter.Contains bf x bits' = true.
Proof. rewrite !Contains_true. intros Hsub H pos Hpos. apply Hsub, H, Hpos. Qed.

Lemma Contains_Add (x : string) (bits : gset Z) :
  RedisBloomFilter.Contains bf x (RedisBloomFilter.Add bf x bits) = true.
Proof.
  apply Contains_true. intros pos Hpos. rewrite Add_spec.
  apply elem_of_union_l, elem_of_list_to_set, Hpos.
Qed.

Lemma addAll_keeps (xs : list string) (bits : gset Z) : bits ⊆ addAll bf xs bits.
Proof.
  revert bits. induction xs as [|y xs IH]; intros bits; simpl; [done|].
  etrans; [apply (Add_keeps y)|apply IH].
Qed.

Lemma addAll_Contains (xs : list string) (x : string) (bits : gset Z) :
  x ∈ xs -> RedisBloomFilter.Contains bf x (addAll bf xs bits) = true.
Proof.
  revert bits. induction xs as [|y xs IH]; intros bits Hin.
  - by apply elem_of_nil in Hin.
  - apply elem_of_cons in Hin as [->|Hin]; simpl.
    + eapply Contains_mono; [apply addAll_keeps|apply Contains_Add].
    + by apply IH.
Qed.

End RedisFilter.

Section MemoryFilter.

Lemma hash_in_range (bf : BloomFilter.t) (x : string) (i : Z) :
  sized bf -> (Z.to_nat (BloomFilter.hash bf x i) < length (BloomFilter.bitset bf))%nat.
Proof.
  intros [Hpos Hlen]. rewrite Hlen. unfold BloomFilter.hash.
  pose proof (Z.mod_pos_bound (Hash.fnv64a (Hash.bytes_of x ++ [i mod 256]))
                (BloomFilter.size bf) Hpos). lia.
Qed.

Lemma setbits_length (ps : list nat) (bs : list bool) :
  length (fold_left (fun b p => <[p := true]> b) ps bs) = length bs.
Proof.
  revert bs. induction ps as [|p ps IH]; intros bs; simpl; [done|].
  by rewrite IH, length_insert.
Qed.

Lemma setbits_keeps (ps : list nat) (bs : list bool) (q : nat) :
  bs !! q = Some true -> fold_left (fun b p => <[p := true]> b) ps bs !! q = Some true.
Proof.
  revert bs. induction ps as [|p ps IH]; intros bs H; simpl; [done|].
  apply IH. destruct (decide (p = q)) as [->|Hne].
  - apply list_lookup_insert_eq. by eapply lookup_lt_Some.
  - by rewrite list_lookup_insert_ne.
Qed.

Lemma setbits_sets (ps : list nat) (bs : list bool) (q : nat) :
  q ∈ ps -> (forall p, p ∈ ps -> (p < length bs)%nat) ->
  fold_left (fun b p => <[p := true]> b) ps bs !! q = Some true.
Proof.
  revert bs. induction ps as [|p ps IH]; intros bs Hin Hlt; simpl.
  - by apply elem_of_nil in Hin.
  - apply elem_of_cons in Hin as [->|Hin].
    + apply setbits_keeps, list_lookup_insert_eq, Hlt. apply elem_of_cons; by left.
    + apply IH; [done|]. intros p' Hp'. rewrite length_insert.
      apply Hlt. apply elem_of_cons; by right.
Qed.

Lemma mem_Add_bitset (bf : BloomFilter.t) (x : string) :
  BloomFilter.bitset (BloomFilter.Add bf x) =
  fold_left (fun b p => <[p := true]> b)
            (map (fun i => Z.to_nat (BloomFilter.hash bf x i)) (seqZ 0 (BloomFilter.hashCount bf)))
            (BloomFilter.bitset bf).
Proof.
  unfold BloomFilter.Add. simpl.
  generalize (BloomFilter.bitset bf) as bs.
  induction (seqZ 0 (BloomFilter.hashCount bf)) as [|i l IH]; intros bs; simpl; [done|].
  apply IH.
Qed.

Lemma mem_Add_sized (bf : BloomFilter.t) (x : string) : sized bf -> sized (BloomFilter.Add bf x).
Proof.
  intros [Hpos Hlen]. split; [done|].
  rewrite mem_Add_bitset, setbits_length. exact Hlen.
Qed.

Lemma mem_Contains_true (bf : BloomFilter.t) (x : string) :
  BloomFilter.Contains bf x = true <->
  forall i, i ∈ seqZ 0 (BloomFilter.hashCount bf) ->
            BloomFilter.bitset bf !! Z.to_nat (BloomFilter.hash bf x i) = Some true.
Proof.
  unfold BloomFilter.Contains. rewrite forallb_forall. split.
  - intros H i Hi. apply list_elem_of_In in Hi.
    specialize (H i Hi). by apply bool_decide_eq_true in H.
  - intros H i Hi. apply bool_decide_eq_true, H. by apply list_elem_of_In.
Qed.

Lemma mem_Add_hash (bf : BloomFilter.t) (x y : string) (i : Z) :
  BloomFilter.hash (BloomFilter.Add bf x) y i = BloomFilter.hash bf y i.
Proof. reflexivity. Qed.

Lemma mem_Contains_Add (bf : BloomFilter.t) (x : string) :
  sized bf -> BloomFilter.Contains (BloomFilter.Add bf x) x = true.
Proof.
  intros Hs. apply mem_Contains_true. intros i Hi. simpl in Hi.
  rewrite mem_Add_hash, mem_Add_bitset. apply setbits_sets.
  - apply list_elem_of_fmap. by exists i.
  - intros p Hp. apply list_elem_of_fmap in Hp as (j & -> & _). by apply hash_in_range.
Qed.

Lemma mem_Contains_keeps (bf : BloomFilter.t) (x y : string) :
  BloomFilter.Contains bf x = true -> BloomFilter.Contains (BloomFilter.Add bf y) x = true.
Proof.
  rewrite !mem_Contains_true. intros H i Hi. simpl in Hi.
  rewrite mem_Add_hash, mem_Add_bitset. apply setbits_keeps, H, Hi.
Qed.

Lemma memAddAll_keeps (xs : list string) (bf : BloomFilter.t) (x : string) :
  BloomFilter.Contains bf x = true -> BloomFilter.Contains (memAddAll xs bf) x = true.
Proof.
  revert bf. induction xs as [|y xs IH]; intros bf H; simpl; [done|].
  by apply IH, mem_Contains_keeps.
Qed.

Lemma memAddAll_Contains (xs : list string) (bf : BloomFilter.t) (x : string) :
  sized bf -> x ∈ xs -> BloomFilter.Contains (memAddAll xs bf) x = true.
Proof.
  revert bf. induction xs as [|y xs IH]; intros bf Hs Hin.
  - by apply elem_of_nil in Hin.
  - apply elem_of_cons in Hin as [->|Hin]; simpl.
    + by apply memAddAll_keeps, mem_Contains_Add.
    + apply IH; [by apply mem_Add_sized|done].
Qed.

Lemma NewBloomFilter_sized (size hashCount : Z) :
  0 < size -> sized (BloomFilter.NewBloomFilter size hashCount).
Proof. intros H. split; [done|]. simpl. apply repeat_length. Qed.

End MemoryFilter.

(** C9.  For both filters, with a non-empty bit array ([m = 0] makes Go panic
    on the modulo): after any sequence of [Add]s on any starting bitmap, every
    element of the sequence is reported by [Contains]; equivalently, an
    element for which [Contains] answers false is not among the added ones. *)
Theorem filter_has_no_false_negatives :
  (forall (bf : RedisBloomFilter.t) (xs : list string) (x : string) (bits0 : gset Z),
      0 < RedisBloomFilter.m bf ->
      (x ∈ xs -> RedisBloomFilter.Contains bf x (addAll bf xs bits0) = true) /\
      (RedisBloomFilter.Contains bf x (addAll bf xs bits0) = false -> x ∉ xs)) /\
  (forall (size hashCount : Z) (xs : list string) (x : string),
      0 < size ->
      let bf := memAddAll xs (BloomFilter.NewBloomFilter size hashCount) in
      (x ∈ xs -> BloomFilter.Contains bf x = true) /\
      (BloomFilter.Contains bf x = false -> x ∉ xs)).
Proof.
  split.
  - intros bf xs x bits0 _. split.
    + apply addAll_Contains.
    + intros Hf Hin. rewrite (addAll_Contains bf xs x bits0 Hin) in Hf. discriminate.
  - intros size hashCount xs x Hsize bf.
    assert (Hin : x ∈ xs -> BloomFilter.Contains bf x = true).
    { intros Hin. apply memAddAll_Contains; [by apply NewBloomFilter_sized|done]. }
    split; [done|]. intros Hf Hx. rewrite (Hin Hx) in Hf. discriminate.
Qed.

Lemma filter_has_no_false_negatives_witness :
  0 < RedisBloomFilter.m CacheOps.bloomFilter /\
  0 < 64 /\
  RedisBloomFilter.Contains CacheOps.bloomFilter "I2"
    (addAll CacheOps.bloomFilter ["I1"; "I2"; "I3"] ∅) = true /\
  BloomFilter.Contains (memAddAll ["I1"; "I2"; "I3"] (BloomFilter.NewBloomFilter 64 3)) "I2" = true.
Proof.
  assert (Hin : "I2" ∈ ["I1"; "I2"; "I3"]) by (apply elem_of_cons; right; apply elem_of_cons; by left).
  assert (Hm : 0 < RedisBloomFilter.m CacheOps.bloomFilter) by reflexivity.
  assert (Hs : 0 < 64) by reflexivity.
  split; [exact Hm|]. split; [exact Hs|]. split.
  - exact (proj1 (proj1 filter_has_no_false_negatives CacheOps.bloomFilter
                    ["I1"; "I2"; "I3"] "I2" ∅ Hm) Hin).
  - exact (proj1 (proj2 filter_has_no_false_negatives 64 3 ["I1"; "I2"; "I3"] "I2" Hs) Hin).
Defined.

(** The bits of a sold item in the service's filter, computed. *)
Example filter_positions_I1 :
  RedisBloomFilter.bitPositions CacheOps.bloomFilter "I1" =
  [150599; 52691; 748417; 485637; 222857; 124949; 820675].
Proof. vm_compute. reflexivity. Qed.

(** ** The purchase script *)






(** C6, as stated, fails outside that range.  With the user's counter at the
    bottom of the signed 64-bit range and a count of -1, both checks of the
    script pass (every number involved is a power of two or small, so Lua
    computes them exactly), the first [INCRBY] lowers the sale counter, and
    the second is refused by Redis for leaving the 64-bit range: the call
    returns the error with exactly one of the two counters changed. *)
Lemma purchase_script_changes_one_counter :
  let sale_key := CacheOps.sale_items_sold_key "S-A" in
  let user_key := CacheOps.user_count_key "S-A" "u1" in
  let c := with_ints emptyCache {[ user_key := - 2 ^ 63 ]} in
  let out := CacheOps.AtomicPurchaseCheck false "S-A" "u1" (-1) 10000 0 c in
  out.1 = Err (ErrNew "ERR increment or decrement would overflow") /\
  ints c !! sale_key = None /\
  ints out.2 !! sale_key = Some (-1) /\
  ints out.2 !! user_key = ints c !! user_key /\
  ~ lua_exact (default 0 (ints c !! user_key)).
Proof.
  repeat split; try (vm_compute; reflexivity).
  vm_compute. intros [H _]. apply H. reflexivity.
Qed.

(** The script refuses at the limit and writes nothing. *)
Example purchase_script_refuses :
  CacheOps.AtomicPurchaseCheck false "S-A" "u1" 3 10000 10
    (with_ints emptyCache {[ CacheOps.user_count_key "S-A" "u1" := 8 ]}) =
  (Ok false, with_ints emptyCache {[ CacheOps.user_count_key "S-A" "u1" := 8 ]}).
Proof. vm_compute. reflexivity. Qed.

(** ** The activity window *)

Lemma IsActive_iff (s : Sale.t) (now : Z) :
  Sale.IsActive s now = true <-> Sale.StartedAt s < now < Sale.EndedAt s.
Proof. unfold Sale.IsActive. rewrite andb_true_iff, !Z.ltb_lt. tauto. Qed.

(** C7 (the code departs from it).  [IsActive] holds exactly on the open
    interval between [StartedAt] and [EndedAt]: at [now = StartedAt] it is
    false for every sale, and a checkout at the opening instant of sale [S-A],
    which the query of [GetActiveSale] does select, is rejected with
    [ErrSaleNotActive]. *)
Theorem sale_inactive_at_its_start :
  (forall s : Sale.t, Sale.IsActive s (Sale.StartedAt s) = false) /\
  (SaleRepository.GetActiveSale false 100 (db threeItems) =
     Ok (Sale.mk "S-A" 100 1000 3 0)) /\
  ((Handle httpCheckoutHandler (calmCheckout 100 1) (checkout "u1" "I1") threeItems).1 =
     Err ErrSaleNotActive).
Proof.
  split; [|split].
  - intros s. unfold Sale.IsActive. by rewrite Z.ltb_irrefl.
  - vm_compute. reflexivity.
  - vm_compute. reflexivity.
Qed.

(** ** Counters of the coordination store *)

(** C4 (the code departs from it).  [IncrementCounters] runs before the sale
    update, the result insert and the commit.  When the first commit fails,
    both counters have been raised although no item is sold, and the retry
    ends with [ErrAllItemsSold]; when the filter write fails too, the retry
    sells the item and raises the counters a second time. *)
Theorem counters_raised_without_commit :
  (let '(outs, w) := runService commitFailsOnce threeItems in
   last outs = Some (Purchased (Err ErrAllItemsSold)) /\
   soldTo "S-A" "u1" (db w) = 0%nat /\
   sold <$> items (db w) !! "I1" = Some false /\
   ints (cache w) !! CacheOps.sale_items_sold_key "S-A" = Some 1 /\
   ints (cache w) !! CacheOps.user_count_key "S-A" "u1" = Some 1) /\
  (let '(outs, w) := runService commitAndFilterFailOnce threeItems in
   soldTo "S-A" "u1" (db w) = 1%nat /\
   ints (cache w) !! CacheOps.sale_items_sold_key "S-A" = Some 2 /\
   ints (cache w) !! CacheOps.user_count_key "S-A" "u1" = Some 2).
Proof. split; vm_compute; repeat split; reflexivity. Qed.

(** C3 (the code departs from it).  The purchase path compares the cached
    user counter with the limit and passes 0 as the user's current count to
    [ValidatePurchase].  With the counter script failing once, a user buys
    ten items and then an eleventh. *)
Theorem user_cap_exceeded_with_stale_counter :
  let '(outs, w) := runService elevenForOneUser elevenItems in
  soldTo "S-A" "u1" (db w) = 11%nat /\
  maxItemsPerUser NewPurchaseUseCase = 10 /\
  ints (cache w) !! CacheOps.user_count_key "S-A" "u1" = Some 1.
Proof. vm_compute. repeat split; reflexivity. Qed.

(** ** The filter in the checkout handler *)

(** C5, as stated, fails: in a state the service reaches, the filter reports
    [I1], the item row says [sold = false], and the checkout of [I1] by
    another user is rejected with [ErrItemAlreadySold]. *)
Lemma filter_positive_rejects_unsold_item :
  CacheOps.ItemExistsInBloomFilter false "I1" (cache filteredButUnsold) = Ok true /\
  sold <$> items (db filteredButUnsold) !! "I1" = Some false /\
  (Handle httpCheckoutHandler (calmCheckout 400 2) (checkout "u2" "I1") filteredButUnsold).1 =
    Err ErrItemAlreadySold.
Proof. vm_compute. repeat split; reflexivity. Qed.

Lemma checkoutItem_already_sold (e : CheckoutEnv) (s : Sale.t) (cmd : CheckoutCommand)
    (w w' : World) :
  checkoutItem e s cmd w = (Err ErrItemAlreadySold, w') ->
  exists r, items (db w) !! ItemID cmd = Some r /\ sold r = true.
Proof.
  unfold checkoutItem, SaleRepository.GetItemByID.
  destruct (co_fail_GetItemByID e); [discriminate|].
  destruct (items (db w) !! ItemID cmd) as [r|] eqn:Hr; [|discriminate].
  simpl. destruct (negb _); [discriminate|].
  unfold Item.IsSold. simpl.
  destruct (sold r) eqn:Hsold; [intros _; by exists r|].
  unfold resolveCheckoutCode, registerCheckoutCode, storeCheckoutItem,
    CacheOps.GetUserCheckoutCode, GenerateCheckoutCode,
    CheckoutRepository.GetCheckoutByCode, Checkout.NewCheckout, Checkout.AddItem,
    CheckoutRepository.CreateCheckout, CheckoutRepository.AddItemToCheckout,
    CheckoutRepository.insert_attempt, on_db, on_cache.
  intros H. exfalso.
  repeat (case_match; simplify_eq/=; try discriminate).
Qed.

(** C5, amended.  When the filter lookup succeeds and reports the item, the
    handler returns [ErrItemAlreadySold] at once and changes nothing, whatever
    the item row says; when the lookup is negative or fails, the handler
    returns [ErrItemAlreadySold] only for an item whose row is sold. *)
Theorem filter_positive_is_final
    (h : CheckoutHandler) (e : CheckoutEnv) (cmd : CheckoutCommand) (w : World) (s : Sale.t) :
  SaleRepository.GetActiveSale (co_fail_GetActiveSale e) (co_db_now e) (db w) = Ok s ->
  Sale.IsActive s (co_now e) = true ->
  (CacheOps.ItemExistsInBloomFilter (co_fail_ItemExistsInBloomFilter e) (ItemID cmd) (cache w)
     = Ok true ->
   Handle h e cmd w = (Err ErrItemAlreadySold, w)) /\
  (CacheOps.ItemExistsInBloomFilter (co_fail_ItemExistsInBloomFilter e) (ItemID cmd) (cache w)
     <> Ok true ->
   forall w', Handle h e cmd w = (Err ErrItemAlreadySold, w') ->
   exists r, items (db w) !! ItemID cmd = Some r /\ sold r = true).
Proof.
  intros Hsale Hactive. unfold Handle. rewrite Hsale, Hactive. simpl. split.
  - intros ->. reflexivity.
  - intros Hneg w'.
    destruct (CacheOps.ItemExistsInBloomFilter _ _ _) as [[|]|er]; [done| |]; simpl.
    all: destruct (rejects (CacheOps.GetAvailableCheckoutSlots _ _ _ _ _) _); [discriminate|].
    all: destruct (rejects (CacheOps.HasUserCheckedOutItem _ _ _ _ _) _); [discriminate|].
    all: apply checkoutItem_already_sold.
Qed.

Lemma filter_positive_is_final_witness :
  SaleRepository.GetActiveSale false 400 (db filteredButUnsold) = Ok (Sale.mk "S-A" 100 1000 3 0) /\
  Sale.IsActive (Sale.mk "S-A" 100 1000 3 0) 400 = true /\
  CacheOps.ItemExistsInBloomFilter false "I1" (cache filteredButUnsold) = Ok true /\
  Handle httpCheckoutHandler (calmCheckout 400 2) (checkout "u2" "I1") filteredButUnsold =
    (Err ErrItemAlreadySold, filteredButUnsold).
Proof.
  assert (Hs : SaleRepository.GetActiveSale (co_fail_GetActiveSale (calmCheckout 400 2))
                 (co_db_now (calmCheckout 400 2)) (db filteredButUnsold)
               = Ok (Sale.mk "S-A" 100 1000 3 0)) by (vm_compute; reflexivity).
  assert (Ha : Sale.IsActive (Sale.mk "S-A" 100 1000 3 0) (co_now (calmCheckout 400 2)) = true)
    by reflexivity.
  assert (Hf : CacheOps.ItemExistsInBloomFilter
                 (co_fail_ItemExistsInBloomFilter (calmCheckout 400 2))
                 (ItemID (checkout "u2" "I1")) (cache filteredButUnsold) = Ok true)
    by (vm_compute; reflexivity).
  split; [exact Hs|]. split; [exact Ha|]. split; [exact Hf|].
  exact (proj1 (filter_positive_is_final httpCheckoutHandler (calmCheckout 400 2)
                  (checkout "u2" "I1") filteredButUnsold _ Hs Ha) Hf).
Defined.

(** ** Admission checks fail open *)

Lemma checkoutItem_admission_flags (b1 b2 b3 : bool) (e : CheckoutEnv) (s : Sale.t)
    (cmd : CheckoutCommand) (w : World) :
  checkoutItem (withAdmissionFlags b1 b2 b3 e) s cmd w = checkoutItem e s cmd w.
Proof. reflexivity. Qed.

Lemma Handle_after_admission (h : CheckoutHandler) (e : CheckoutEnv) (cmd : CheckoutCommand)
    (w : World) (s : Sale.t) :
  SaleRepository.GetActiveSale (co_fail_GetActiveSale e) (co_db_now e) (db w) = Ok s ->
  Sale.IsActive s (co_now e) = true ->
  co_fail_ItemExistsInBloomFilter e = true \/ filterSaysSold cmd w = false ->
  co_fail_GetAvailableCheckoutSlots e = true \/ 0 < availableSlots h s cmd w ->
  co_fail_HasUserCheckedOutItem e = true \/ hasCheckedOut s cmd w = false ->
  Handle h e cmd w = checkoutItem e s cmd w.
Proof.
  intros Hsale Hactive Hfilter Hslots Hchecked.
  unfold Handle. rewrite Hsale, Hactive. simpl.
  assert (rejects (CacheOps.ItemExistsInBloomFilter (co_fail_ItemExistsInBloomFilter e)
                     (ItemID cmd) (cache w)) (fun isSold => isSold) = false) as ->.
  { unfold CacheOps.ItemExistsInBloomFilter.
    destruct (co_fail_ItemExistsInBloomFilter e); [done|].
    destruct Hfilter as [?|Hf]; [done|]. exact Hf. }
  assert (rejects (CacheOps.GetAvailableCheckoutSlots (co_fail_GetAvailableCheckoutSlots e)
                     (Sale.ID s) (UserID cmd) (maxItemsLimit h) (cache w))
                  (fun n => n <=? 0) = false) as ->.
  { unfold CacheOps.GetAvailableCheckoutSlots, CacheOps.GetUserItemCount,
      CacheOps.GetUserCheckoutCount.
    destruct (co_fail_GetAvailableCheckoutSlots e); [done|].
    destruct Hslots as [?|Hn]; [done|]. simpl. unfold availableSlots in Hn. lia. }
  assert (rejects (CacheOps.HasUserCheckedOutItem (co_fail_HasUserCheckedOutItem e)
                     (Sale.ID s) (UserID cmd) (ItemID cmd) (cache w))
                  (fun b => b) = false) as ->.
  { unfold CacheOps.HasUserCheckedOutItem.
    destruct (co_fail_HasUserCheckedOutItem e); [done|].
    destruct Hchecked as [?|Hc]; [done|]. exact Hc. }
  reflexivity.
Qed.

(** C10.  For an active sale, and for each of the three admission reads
    either failing or passing ([filterFails], [slotsFail], [checkedFails] say
    which fail; a read that does not fail passes in [w]):
    - the handler continues with the item lookup in the durable store, on the
      unchanged world;
    - its outcome is the one obtained when none of the three reads fails;
    - the item checks of the durable store decide as usual: a missing item is
      [ErrItemNotFound], an item of another sale [ErrItemNotInSale], a sold
      item [ErrItemAlreadySold]. *)
Theorem admission_checks_fail_open
    (h : CheckoutHandler) (e : CheckoutEnv) (cmd : CheckoutCommand) (w : World) (s : Sale.t)
    (filterFails slotsFail checkedFails : bool) :
  SaleRepository.GetActiveSale (co_fail_GetActiveSale e) (co_db_now e) (db w) = Ok s ->
  Sale.IsActive s (co_now e) = true ->
  filterFails = true \/ filterSaysSold cmd w = false ->
  slotsFail = true \/ 0 < availableSlots h s cmd w ->
  checkedFails = true \/ hasCheckedOut s cmd w = false ->
  let failing := withAdmissionFlags filterFails slotsFail checkedFails e in
  Handle h failing cmd w = checkoutItem e s cmd w /\
  (filterSaysSold cmd w = false -> 0 < availableSlots h s cmd w -> hasCheckedOut s cmd w = false ->
   Handle h failing cmd w = Handle h (withAdmissionFlags false false false e) cmd w) /\
  (co_fail_GetItemByID e = false ->
   match items (db w) !! ItemID cmd with
   | None => (Handle h failing cmd w).1 = Err ErrItemNotFound
   | Some r =>
       if negb (String.eqb (sale_id r) (Sale.ID s))
       then (Handle h failing cmd w).1 = Err ErrItemNotInSale
       else sold r = true -> (Handle h failing cmd w).1 = Err ErrItemAlreadySold
   end).
Proof.
  intros Hsale Hactive Hfilter Hslots Hchecked failing.
  assert (Hfail : Handle h failing cmd w = checkoutItem e s cmd w).
  { rewrite <- (checkoutItem_admission_flags filterFails slotsFail checkedFails).
    by apply Handle_after_admission. }
  split; [exact Hfail|]. split.
  - intros Hf Hn Hc. rewrite Hfail.
    rewrite <- (checkoutItem_admission_flags false false false).
    symmetry. apply Handle_after_admission; auto.
  - intros Hget. rewrite Hfail. unfold checkoutItem, SaleRepository.GetItemByID.
    rewrite Hget. destruct (items (db w) !! ItemID cmd) as [r|]; [|reflexivity].
    simpl. destruct (negb _); [reflexivity|].
    unfold Item.IsSold. simpl. by intros ->.
Qed.

(** With the three reads failing on a cache that would reject the checkout
    (the filter reports [I1]), the checkout goes through to the durable store
    and succeeds. *)
Lemma admission_checks_fail_open_witness :
  let e := calmCheckout 400 2 in
  let s := Sale.mk "S-A" 100 1000 3 0 in
  SaleRepository.GetActiveSale false 400 (db filteredButUnsold) = Ok s /\
  Sale.IsActive s 400 = true /\
  filterSaysSold (checkout "u2" "I1") filteredButUnsold = true /\
  Handle httpCheckoutHandler (withAdmissionFlags true true true e) (checkout "u2" "I1")
         filteredButUnsold =
  checkoutItem e s (checkout "u2" "I1") filteredButUnsold /\
  (Handle httpCheckoutHandler (withAdmissionFlags true true true e) (checkout "u2" "I1")
          filteredButUnsold).1 =
  Ok {| Code := code2; ItemsCount := 1; SaleEndsAt := 1000 |}.
Proof.
  assert (Hs : SaleRepository.GetActiveSale (co_fail_GetActiveSale (calmCheckout 400 2))
                 (co_db_now (calmCheckout 400 2)) (db filteredButUnsold)
               = Ok (Sale.mk "S-A" 100 1000 3 0)) by (vm_compute; reflexivity).
  assert (Ha : Sale.IsActive (Sale.mk "S-A" 100 1000 3 0) (co_now (calmCheckout 400 2)) = true)
    by reflexivity.
  pose proof (proj1 (admission_checks_fail_open httpCheckoutHandler (calmCheckout 400 2)
                       (checkout "u2" "I1") filteredButUnsold _ true true true Hs Ha
                       (or_introl eq_refl) (or_introl eq_refl) (or_introl eq_refl))) as H.
  split; [exact Hs|]. split; [exact Ha|]. split; [vm_compute; reflexivity|].
  split; [exact H|]. vm_compute. reflexivity.
Defined.

(** ** Purchasing a processed code *)

Lemma sameLedger_refl (d : Database) : sameLedger d d.
Proof. by repeat split. Qed.

Lemma sameLedger_trans (d1 d2 d3 : Database) :
  sameLedger d1 d2 -> sameLedger d2 d3 -> sameLedger d1 d3.
Proof. intros (?&?&?) (?&?&?). repeat split; congruence. Qed.

Lemma insert_attempt_ledger (code saleID userID : string) (itemIDs : list string) (d : Database) :
  sameLedger d (CheckoutRepository.insert_attempt code saleID userID itemIDs d).2.
Proof.
  unfold CheckoutRepository.insert_attempt.
  repeat case_match; simpl; by repeat split.
Qed.

Lemma logAttempts_ledger (e : AttemptEnv) (ck : Checkout.t) (ids : list string) (i : nat)
    (d : Database) :
  sameLedger d (logAttempts e ck i ids d).
Proof.
  revert i d. induction ids as [|id ids IH]; intros i d; simpl; [apply sameLedger_refl|].
  eapply sameLedger_trans; [|apply IH].
  unfold CheckoutRepository.LogCheckoutAttempt.
  destruct (at_fail_LogCheckoutAttempt e i); [apply sameLedger_refl|apply insert_attempt_ledger].
Qed.

Lemma GetCheckoutByCode_Code (fail : bool) (code : string) (d : Database) (ck : Checkout.t) :
  CheckoutRepository.GetCheckoutByCode fail code d = Ok ck -> Checkout.Code ck = code.
Proof.
  unfold CheckoutRepository.GetCheckoutByCode. destruct fail; [discriminate|].
  destruct (last (CheckoutRepository.attempts_of code d)) as [a|] eqn:Hlast; [|discriminate].
  intros [= <-]. simpl.
  apply last_Some in Hlast as [l' Hl'].
  assert (Hin : In a (CheckoutRepository.attempts_of code d)).
  { rewrite Hl'. apply in_or_app. right. by left. }
  apply filter_In in Hin as [_ Heq]. by apply String.eqb_eq.
Qed.

Lemma attemptPurchase_processed (uc : PurchaseUseCase) (e : AttemptEnv) (ck : Checkout.t)
    (w w' : World) (r : PurchaseResult) (res : result PurchaseResult) :
  purchase_results (db w) !! Checkout.Code ck = Some r ->
  attemptPurchase uc e ck w = (res, w') ->
  (exists er, res = Err er /\ (er = ErrCheckoutAlreadyProcessed \/ failsBeforeProbe er)) /\
  sameLedger (db w) (db w').
Proof.
  intros Hrow. unfold attemptPurchase.
  pose proof (logAttempts_ledger e ck (Checkout.ItemIDs ck) 0 (db w)) as Hlog.
  set (w0 := with_db w (logAttempts e ck 0 (Checkout.ItemIDs ck) (db w))).
  assert (Hdb : db w0 = logAttempts e ck 0 (Checkout.ItemIDs ck) (db w)) by reflexivity.
  assert (Hrow0 : purchase_results (db w0) !! Checkout.Code ck = Some r).
  { rewrite Hdb. destruct Hlog as (_ & _ & ->). exact Hrow. }
  rewrite <- Hdb in Hlog. clearbody w0. clear Hdb.
  unfold failsBeforeProbe, SaleRepository.GetPurchaseResult, rolledBack, leftOpen.
  rewrite Hrow0.
  repeat case_match; simplify_eq; intros [= <- <-];
    (split; [eexists; split; [reflexivity|]; tauto|exact Hlog]).
Qed.

Lemma attemptLoop_processed (uc : PurchaseUseCase) (envs : nat -> AttemptEnv) (ck : Checkout.t)
    (more attempt : nat) (w w' : World) (r : PurchaseResult) (res : result PurchaseResult) :
  purchase_results (db w) !! Checkout.Code ck = Some r ->
  attemptLoop uc envs ck attempt more w = (res, w') ->
  (exists er, res = Err er /\ (er = ErrCheckoutAlreadyProcessed \/ failsBeforeProbe er)) /\
  sameLedger (db w) (db w').
Proof.
  revert attempt w. induction more as [|more IH]; intros attempt w Hrow; simpl;
    destruct (attemptPurchase uc (envs attempt) ck w) as [res1 w1] eqn:Hatt;
    destruct (attemptPurchase_processed uc _ ck w w1 r res1 Hrow Hatt)
      as [(er & -> & Her) Hled].
  - destruct (isBusinessLogicError er); intros [= <- <-]; (split; [by exists er|exact Hled]).
  - destruct (isBusinessLogicError er).
    + intros [= <- <-]. split; [by exists er|exact Hled].
    + intros Hloop. apply IH in Hloop as [Hres Hled'].
      * split; [exact Hres|]. eapply sameLedger_trans; eassumption.
      * destruct Hled as (_ & _ & ->). exact Hrow.
Qed.

Lemma preCheck_ints (uc : PurchaseUseCase) (e : AttemptEnv) (ck : Checkout.t) (c c' : Cache) :
  ints c' = ints c -> preCheck uc e ck c' = preCheck uc e ck c.
Proof.
  intros Hints.
  unfold preCheck, CacheOps.GetUserItemCount, CacheOps.GetSaleItemCount, Redis.get_int.
  by rewrite Hints.
Qed.

(** What an attempt does when the code has a result row, by how far it gets. *)
Lemma attemptPurchase_probe (uc : PurchaseUseCase) (e : AttemptEnv) (ck : Checkout.t)
    (w w' : World) (r : PurchaseResult) (res : result PurchaseResult) :
  purchase_results (db w) !! Checkout.Code ck = Some r ->
  attemptPurchase uc e ck w = (res, w') ->
  cache w' = cache w /\
  (reachesProbe uc e ck (cache w) = true ->
   res = Err ErrCheckoutAlreadyProcessed /\ open_txs w' = S (open_txs w)) /\
  (retriedBeforeProbe uc e ck (cache w) = true ->
   (exists er, res = Err er /\ isBusinessLogicError er = false) /\ open_txs w' = open_txs w).
Proof.
  intros Hrow. unfold attemptPurchase.
  pose proof (logAttempts_ledger e ck (Checkout.ItemIDs ck) 0 (db w)) as Hlog.
  set (w0 := with_db w (logAttempts e ck 0 (Checkout.ItemIDs ck) (db w))).
  assert (Hdb : db w0 = logAttempts e ck 0 (Checkout.ItemIDs ck) (db w)) by reflexivity.
  assert (Hrow0 : purchase_results (db w0) !! Checkout.Code ck = Some r).
  { rewrite Hdb. destruct Hlog as (_ & _ & ->). exact Hrow. }
  assert (Hc : cache w0 = cache w) by reflexivity.
  assert (Ho : open_txs w0 = open_txs w) by reflexivity.
  clearbody w0. clear Hdb Hlog.
  unfold reachesProbe, retriedBeforeProbe, preCheck. rewrite <- Hc, <- Ho.
  unfold SaleRepository.GetPurchaseResult, rolledBack, leftOpen.
  rewrite Hrow0.
  repeat case_match; simplify_eq; intros [= <- <-]; simpl;
    (split; [reflexivity|]); split; intros Hflag; try discriminate;
    (split; [try reflexivity; by eexists|reflexivity]).
Qed.

Lemma attemptLoop_probe (uc : PurchaseUseCase) (envs : nat -> AttemptEnv) (ck : Checkout.t)
    (k more attempt : nat) (w w' : World) (r : PurchaseResult) (res : result PurchaseResult) :
  purchase_results (db w) !! Checkout.Code ck = Some r ->
  (k <= more)%nat ->
  (forall j, (j < k)%nat -> retriedBeforeProbe uc (envs (attempt + j)%nat) ck (cache w) = true) ->
  reachesProbe uc (envs (attempt + k)%nat) ck (cache w) = true ->
  attemptLoop uc envs ck attempt more w = (res, w') ->
  res = Err ErrCheckoutAlreadyProcessed /\ open_txs w' = S (open_txs w).
Proof.
  revert more attempt w.
  induction k as [|k IH]; intros more attempt w Hrow Hk Hearly Hreach Hloop.
  - rewrite Nat.add_0_r in Hreach.
    destruct (attemptPurchase uc (envs attempt) ck w) as [res1 w1] eqn:Hatt.
    destruct (attemptPurchase_probe uc _ ck w w1 r res1 Hrow Hatt) as (_ & Hp & _).
    destruct (Hp Hreach) as [-> Hopen].
    destruct more; simpl in Hloop; rewrite Hatt in Hloop; simpl in Hloop;
      injection Hloop as <- <-; by split.
  - destruct more as [|more]; [lia|].
    simpl in Hloop.
    destruct (attemptPurchase uc (envs attempt) ck w) as [res1 w1] eqn:Hatt.
    destruct (attemptPurchase_probe uc _ ck w w1 r res1 Hrow Hatt) as (Hc & _ & Hr).
    destruct (attemptPurchase_processed uc _ ck w w1 r res1 Hrow Hatt) as [_ Hled].
    specialize (Hearly 0%nat ltac:(lia)) as Hfirst. rewrite Nat.add_0_r in Hfirst.
    destruct (Hr Hfirst) as [(er & -> & Hbus) Hopen].
    rewrite Hbus in Hloop.
    apply IH in Hloop.
    + by rewrite <- Hopen.
    + destruct Hled as (_ & _ & ->). exact Hrow.
    + lia.
    + intros j Hj. rewrite Hc. replace (S attempt + j)%nat with (attempt + S j)%nat by lia.
      apply Hearly. lia.
    + rewrite Hc. by replace (S attempt + k)%nat with (attempt + S k)%nat by lia.
Qed.

(** C2, amended.  For a code that has a [purchase_results] row,
    [ExecutePurchase] never reports a purchase: it returns
    [ErrCheckoutAlreadyProcessed], or the error of a step that fails before
    the idempotency probe is reached ([ErrCheckoutNotFound] once the cleanup
    of the first purchase has deleted the checkout); and it leaves the
    [items], [sales] and [purchase_results] tables as they were.  Whenever the
    probe is reached, the error is [ErrCheckoutAlreadyProcessed] and nothing
    else: when the marker read does not fail, the checkout loads, the lock is
    free and taken, and attempt [k] is the first whose pre-check, BEGIN and
    probe query do not fail (the earlier ones being retried), the invocation
    returns [ErrCheckoutAlreadyProcessed]; the transaction of that attempt is
    left open and is the only one. *)
Theorem processed_code_is_not_purchased_again
    (uc : PurchaseUseCase) (e : PurchaseEnv) (code : string) (w w' : World)
    (r : PurchaseResult) (res : result PurchaseResult) :
  purchase_results (db w) !! code = Some r ->
  ExecutePurchase uc e code w = (res, w') ->
  (exists er, res = Err er /\ (er = ErrCheckoutAlreadyProcessed \/ failsBeforeProbe er)) /\
  sameLedger (db w) (db w') /\
  (forall (ck : Checkout.t) (k : nat),
      pu_fail_CheckoutCodeExists e = false ->
      CheckoutRepository.GetCheckoutByCode (pu_fail_GetCheckoutByCode e) code (db w) = Ok ck ->
      pu_fail_DistributedLock e = false ->
      strs (cache w) !! CacheOps.lock_key ("purchase:" +:+ code) = None ->
      (k <= Nat.pred (retryAttempts uc))%nat ->
      (forall j, (j < k)%nat ->
                 retriedBeforeProbe uc (pu_attempt e j) ck (cache w) = true) ->
      reachesProbe uc (pu_attempt e k) ck (cache w) = true ->
      res = Err ErrCheckoutAlreadyProcessed /\ open_txs w' = S (open_txs w)).
Proof.
  intros Hrow. unfold ExecutePurchase, CacheOps.CheckoutCodeExists.
  destruct (pu_fail_CheckoutCodeExists e).
  { intros [= <- <-]. split; [|split; [apply sameLedger_refl|discriminate]].
    exists redis_error. unfold failsBeforeProbe. tauto. }
  destruct (CheckoutRepository.GetCheckoutByCode _ code (db w)) as [ck|er0] eqn:Hck.
  2:{ intros [= <- <-]. split; [|split; [apply sameLedger_refl|discriminate]].
      exists ErrCheckoutNotFound. unfold failsBeforeProbe. tauto. }
  pose proof (GetCheckoutByCode_Code _ _ _ _ Hck) as Hcode.
  set (w1 := if bool_decide _ then w else _).
  assert (Hw1 : db w1 = db w) by (unfold w1; by destruct (bool_decide _)).
  assert (Hi1 : ints (cache w1) = ints (cache w)).
  { unfold w1, CacheOps.SetCheckoutCode. by repeat case_match. }
  assert (Ho1 : open_txs w1 = open_txs w) by (unfold w1; by destruct (bool_decide _)).
  assert (Hl1 : strs (cache w) !! CacheOps.lock_key ("purchase:" +:+ code) = None ->
                strs (cache w1) !! CacheOps.lock_key ("purchase:" +:+ code) = None).
  { unfold w1, CacheOps.SetCheckoutCode. repeat case_match; simpl; try done.
    intros Hfree. rewrite lookup_insert_ne; [exact Hfree|].
    unfold CacheOps.checkout_key, CacheOps.lock_key. simpl. discriminate. }
  clearbody w1.
  unfold on_cache, CacheOps.DistributedLock.
  destruct (pu_fail_DistributedLock e); simpl.
  { intros [= <- <-]. simpl. rewrite Hw1. split; [|split; [apply sameLedger_refl|discriminate]].
    eexists. split; [reflexivity|]. unfold failsBeforeProbe. tauto. }
  destruct (strs (cache w1) !! _) eqn:Hlock; simpl.
  { intros [= <- <-]. simpl. rewrite Hw1. split; [|split; [apply sameLedger_refl|]].
    - eexists. split; [reflexivity|]. unfold failsBeforeProbe. tauto.
    - intros ck' k _ _ _ Hfree. apply Hl1 in Hfree. congruence. }
  match goal with
  | |- context [attemptLoop uc ?envs ck 0 ?more ?x] =>
      set (w2 := x); destruct (attemptLoop uc envs ck 0 more w2) as [res3 w3] eqn:Hloop
  end.
  assert (Hrow2 : purchase_results (db w2) !! Checkout.Code ck = Some r).
  { simpl. rewrite Hw1, Hcode. exact Hrow. }
  destruct (attemptLoop_processed uc _ ck _ _ _ _ r _ Hrow2 Hloop) as [(er & -> & Her) Hled].
  simpl in Hled. rewrite Hw1 in Hled.
  intros [= <- <-]. split; [by exists er|]. split; [exact Hled|].
  intros ck' k _ [= <-] _ _ Hk Hearly Hreach. simpl.
  assert (Hpre : forall a, preCheck uc a ck (cache w2) = preCheck uc a ck (cache w)).
  { intros a. apply preCheck_ints. simpl. exact Hi1. }
  destruct (attemptLoop_probe uc (pu_attempt e) ck k _ 0 w2 w3 r (Err er) Hrow2 Hk) as [Hres Hopen].
  - intros j Hj. specialize (Hearly j Hj). unfold retriedBeforeProbe in *. by rewrite Hpre.
  - unfold reachesProbe in *. by rewrite Hpre.
  - exact Hloop.
  - split; [exact Hres|]. rewrite Hopen. simpl. by rewrite Ho1.
Qed.

(** C2, as stated, fails.  After scenario E4 (checkout, purchase) the code
    has a result row and the second purchase returns [ErrCheckoutNotFound],
    because the cleanup of the first purchase deleted the checkout.  Where
    the checkout survives and the probe answers, the invocation still writes
    three audit rows into [checkout_attempts] and leaves its transaction
    open. *)
Lemma processed_code_reported_not_found :
  is_Some (purchase_results (db purchasedOnce) !! code1) /\
  (ExecutePurchase NewPurchaseUseCase (calmPurchase 400) code1 purchasedOnce).1
    = Err ErrCheckoutNotFound /\
  is_Some (purchase_results (db nothingLeftToBuy) !! code1) /\
  (let '(res, w') := ExecutePurchase NewPurchaseUseCase (calmPurchase 400) code1
                       nothingLeftToBuy in
   res = Err ErrCheckoutAlreadyProcessed /\
   length (checkout_attempts (db nothingLeftToBuy)) = 3%nat /\
   length (checkout_attempts (db w')) = 6%nat /\
   open_txs w' = S (open_txs nothingLeftToBuy)).
Proof.
  split; [vm_compute; eauto|]. split; [vm_compute; reflexivity|].
  split; [vm_compute; eauto|]. vm_compute. repeat split; reflexivity.
Qed.

Lemma processed_code_is_not_purchased_again_witness :
  let out := ExecutePurchase NewPurchaseUseCase (calmPurchase 400) code1 nothingLeftToBuy in
  purchase_results (db nothingLeftToBuy) !! code1 =
    Some (CalculatePurchaseResult [item_of_row "I1" (unsoldItem "S-A" "I1")] []) /\
  reachesProbe NewPurchaseUseCase (calmAttempt 400)
    (Checkout.mk code1 "S-A" "u1" ["I1"; "I1"; "I1"]) (cache nothingLeftToBuy) = true /\
  out.1 = Err ErrCheckoutAlreadyProcessed /\
  open_txs out.2 = S (open_txs nothingLeftToBuy).
Proof.
  intros out.
  assert (Hrow : purchase_results (db nothingLeftToBuy) !! code1 =
                 Some (CalculatePurchaseResult [item_of_row "I1" (unsoldItem "S-A" "I1")] []))
    by (vm_compute; reflexivity).
  assert (Hreach : reachesProbe NewPurchaseUseCase (calmAttempt 400)
                     (Checkout.mk code1 "S-A" "u1" ["I1"; "I1"; "I1"]) (cache nothingLeftToBuy) = true)
    by (vm_compute; reflexivity).
  split; [exact Hrow|]. split; [exact Hreach|].
  refine (proj2 (proj2 (processed_code_is_not_purchased_again NewPurchaseUseCase
                          (calmPurchase 400) code1 nothingLeftToBuy out.2 _ out.1 Hrow
                          (surjective_pairing out)))
            (Checkout.mk code1 "S-A" "u1" ["I1"; "I1"; "I1"]) 0%nat _ _ _ _ _ _ Hreach).
  - reflexivity.
  - vm_compute. reflexivity.
  - reflexivity.
  - vm_compute. reflexivity.
  - simpl. lia.
  - intros j Hj. lia.
Defined.

(** ** Checkout reuse *)














(** *** What a purchase does to the coordination store *)










(** *** What keeps the user's code in place *)












(** *** The duplicate item *)






(** ** No item is sold twice *)























